(** * SpatialDataFrames: the two lesson notebooks, their cells and their kernel

    The repository is a pair of Jupyter notebooks.  Each code cell is a short
    piece of Python (with IPython's [obj?] help syntax) that calls into pandas,
    GeoPandas, Fiona or the ArcGIS API for Python.

    The development has four layers:
    - [Lexer] and [Parser]: the fragment of Python/IPython the cells are
      written in, from the cell text to an abstract syntax tree;
    - [Notebooks]: the code cells of both notebooks, transcribed line by line;
    - [Kernel]: a notebook kernel executing parsed cells against an arbitrary
      [Library] (the interface through which cells reach external code);
    - [RefLib]: a reference model of the library calls the cells make, over an
      explicit outside world (disk, remote feature services, driver registry). *)

From Stdlib Require Import ZArith Ascii String.
From stdpp Require Import base gmap strings list pretty.

Set Warnings "-register-all".
Local Open Scope string_scope.

(** ** Characters *)

Module Chars.

Definition newline : ascii := "010"%char.
Definition tab : ascii := "009"%char.
Definition squote : ascii := "039"%char.
Definition dquote : ascii := "034"%char.
Definition backslash : ascii := "092"%char.

(** A one-character string holding the double quote, for cell lines that
    use double-quoted Python literals. *)
Definition dq : string := String dquote EmptyString.

Definition code (c : ascii) : N := N_of_ascii c.

Definition is_digit (c : ascii) : bool :=
  ((48 <=? code c) && (code c <=? 57))%N.

Definition is_alpha (c : ascii) : bool :=
  (((65 <=? code c) && (code c <=? 90))
   || ((97 <=? code c) && (code c <=? 122))
   || (code c =? 95))%N.

Definition is_blank (c : ascii) : bool :=
  bool_decide (c = " "%char) || bool_decide (c = tab).

Definition is_quote (c : ascii) : bool :=
  bool_decide (c = squote) || bool_decide (c = dquote).

Definition is_open (c : ascii) : bool :=
  bool_decide (c ∈ ["("; "["; "{"]%char).

Definition is_close (c : ascii) : bool :=
  bool_decide (c ∈ [")"; "]"; "}"]%char).

(** Punctuation that is a token of its own.  ["?"] is not Python: it is the
    suffix IPython turns into a help query. *)
Definition is_punct (c : ascii) : bool :=
  bool_decide (c ∈ ["."; ","; "="; "?"; ";"; ":"; "+"; "-"; "*"; "/";
                    "<"; ">"; "%"; "@"; "&"; "|"; "^"; "~"; "!"]%char).

Definition digit_value (c : ascii) : Z := Z.of_N (code c) - 48.

Definition string_of_rev (acc : list ascii) : string :=
  string_of_list_ascii (rev acc).

Definition Z_of_rev_digits (acc : list ascii) : Z :=
  fold_left (fun n c => 10 * n + digit_value c)%Z (rev acc) 0%Z.

End Chars.

(** ** Lexer *)

Module Lexer.
Import Chars.

Inductive token : Type :=
| TName (s : string)
| TKeyword (s : string)
| TStr (s : string)
| TInt (n : Z)
| TFloat (lit : string)
| TOp (c : ascii)
| TNewline.

#[global] Instance token_eq_dec : EqDecision token.
Proof. solve_decision. Defined.

(** The reserved words of Python 3.10 (the kernel both notebooks name). *)
Definition python_keywords : list string :=
  ["False"; "None"; "True"; "and"; "as"; "assert"; "async"; "await";
   "break"; "class"; "continue"; "def"; "del"; "elif"; "else"; "except";
   "finally"; "for"; "from"; "global"; "if"; "import"; "in"; "is";
   "lambda"; "nonlocal"; "not"; "or"; "pass"; "raise"; "return"; "try";
   "while"; "with"; "yield"].

Definition word_token (w : string) : token :=
  if bool_decide (w ∈ python_keywords) then TKeyword w else TName w.

Inductive lex_mode : Type :=
| MLineStart                       (* bracket depth 0, nothing seen on the line *)
| MIndent                          (* bracket depth 0, only blanks seen *)
| MCode                            (* between two tokens *)
| MWord (acc : list ascii)         (* inside an identifier, reversed *)
| MInt (acc : list ascii)          (* inside an integer literal *)
| MFrac (acc : list ascii)         (* after the point of a float literal *)
| MStr (q : ascii) (acc : list ascii)
| MComment.

Record lex_state : Type := LexState {
  mode : lex_mode;
  depth : nat;                     (* open brackets *)
  out : list token                 (* tokens so far, last first *)
}.

Inductive lex_error : Type :=
| UnexpectedIndent
| UnterminatedString
| UnsupportedEscape
| InvalidDecimalLiteral
| UnmatchedClose
| UnexpectedEOF
| InvalidCharacter (c : ascii).

Definition emit (t : token) (st : lex_state) : lex_state :=
  LexState MCode (depth st) (t :: out st).

(** A logical line ends only when it holds at least one token. *)
Definition end_line (st : lex_state) : lex_state :=
  match out st with
  | [] | TNewline :: _ => LexState MLineStart (depth st) (out st)
  | _ => LexState MLineStart (depth st) (TNewline :: out st)
  end.

(** Close the identifier or number being read, if any. *)
Definition flush (st : lex_state) : lex_state :=
  match mode st with
  | MWord acc => emit (word_token (string_of_rev acc)) st
  | MInt acc => emit (TInt (Z_of_rev_digits acc)) st
  | MFrac acc => emit (TFloat (string_of_rev acc)) st
  | _ => st
  end.

(** One character read between tokens. *)
Definition step_code (st : lex_state) (c : ascii) : lex_error + lex_state :=
  if is_blank c then inr (LexState MCode (depth st) (out st))
  else if bool_decide (c = newline) then
    inr (match depth st with
         | O => end_line st
         | S _ => LexState MCode (depth st) (out st)
         end)
  else if bool_decide (c = "#"%char) then
    inr (LexState MComment (depth st) (out st))
  else if is_alpha c then inr (LexState (MWord [c]) (depth st) (out st))
  else if is_digit c then inr (LexState (MInt [c]) (depth st) (out st))
  else if is_quote c then inr (LexState (MStr c []) (depth st) (out st))
  else if is_open c then inr (LexState MCode (S (depth st)) (TOp c :: out st))
  else if is_close c then
    match depth st with
    | O => inl UnmatchedClose
    | S d => inr (LexState MCode d (TOp c :: out st))
    end
  else if is_punct c then inr (emit (TOp c) st)
  else inl (InvalidCharacter c).

Definition lex_step (st : lex_state) (c : ascii) : lex_error + lex_state :=
  match mode st with
  | MLineStart | MIndent =>
      if is_blank c then inr (LexState MIndent (depth st) (out st))
      else if bool_decide (c = newline) then
        inr (LexState MLineStart (depth st) (out st))
      else if bool_decide (c = "#"%char) then
        inr (LexState MComment (depth st) (out st))
      else match mode st with
           | MIndent => inl UnexpectedIndent
           | _ => step_code st c
           end
  | MCode => step_code st c
  | MWord acc =>
      if is_alpha c || is_digit c
      then inr (LexState (MWord (c :: acc)) (depth st) (out st))
      else step_code (flush st) c
  | MInt acc =>
      if is_digit c then inr (LexState (MInt (c :: acc)) (depth st) (out st))
      else if bool_decide (c = "."%char)
      then inr (LexState (MFrac (c :: acc)) (depth st) (out st))
      else if is_alpha c then inl InvalidDecimalLiteral
      else step_code (flush st) c
  | MFrac acc =>
      if is_digit c then inr (LexState (MFrac (c :: acc)) (depth st) (out st))
      else if is_alpha c then inl InvalidDecimalLiteral
      else step_code (flush st) c
  | MStr q acc =>
      if bool_decide (c = q) then inr (emit (TStr (string_of_rev acc)) st)
      else if bool_decide (c = newline) then inl UnterminatedString
      else if bool_decide (c = backslash) then inl UnsupportedEscape
      else inr (LexState (MStr q (c :: acc)) (depth st) (out st))
  | MComment =>
      if bool_decide (c = newline) then
        inr (match depth st with
             | O => end_line st
             | S _ => LexState MCode (depth st) (out st)
             end)
      else inr st
  end.

Fixpoint lex_chars (st : lex_state) (cs : list ascii) : lex_error + lex_state :=
  match cs with
  | [] => inr st
  | c :: cs' =>
      match lex_step st c with
      | inl e => inl e
      | inr st' => lex_chars st' cs'
      end
  end.

Definition lex_finish (st : lex_state) : lex_error + list token :=
  match mode st with
  | MStr _ _ => inl UnterminatedString
  | _ =>
      match depth st with
      | S _ => inl UnexpectedEOF
      | O => inr (rev (out (end_line (flush st))))
      end
  end.

Definition lex (src : string) : lex_error + list token :=
  match lex_chars (LexState MLineStart 0 []) (list_ascii_of_string src) with
  | inl e => inl e
  | inr st => lex_finish st
  end.

End Lexer.

(** ** Abstract syntax and parser *)

Module Syntax.

Inductive const : Type :=
| CStr (s : string)
| CInt (n : Z)
| CFloat (lit : string)
| CBool (b : bool)
| CNone.

Inductive expr : Type :=
| EName (x : string)
| EConst (c : const)
| EAttr (e : expr) (a : string)                      (* e.a *)
| ECall (f : expr) (args : list expr) (kwargs : list (string * expr))
| ESubscript (e : expr) (i : expr)                   (* e[i] *)
| ETuple (es : list expr).

Inductive stmt : Type :=
| SImport (module : list string) (asname : option string)
| SFromImport (module : list string) (name : string) (asname : option string)
| SAssign (target : expr) (value : expr)
| SExpr (e : expr)
| SHelp (e : expr).                                  (* IPython: e? *)

End Syntax.

Module Parser.
Import Lexer Syntax.

Inductive parse_error : Type :=
| ExpectedExpression (at_ : list token)
| ExpectedName (at_ : list token)
| ExpectedClose (at_ : list token)
| ExpectedEndOfStatement (at_ : list token)
| PositionalAfterKeyword
| CannotAssign
| UnsupportedStatement (kw : string)
| OutOfFuel.

Definition parser (A : Type) : Type := list token -> parse_error + (A * list token).

Definition ret {A} (a : A) : parser A := fun ts => inr (a, ts).
Definition fail {A} (e : parse_error) : parser A := fun _ => inl e.
Definition bind {A B} (p : parser A) (k : A -> parser B) : parser B :=
  fun ts => match p ts with
            | inl e => inl e
            | inr (a, ts') => k a ts'
            end.

Notation "'let*' x := p 'in' k" := (bind p (fun x => k))
  (at level 10, x pattern, p at level 100, k at level 200).

Definition expect_close (c : ascii) : parser unit :=
  fun ts => match ts with
            | TOp c' :: ts' => if bool_decide (c' = c) then inr (tt, ts')
                               else inl (ExpectedClose ts)
            | _ => inl (ExpectedClose ts)
            end.

Definition const_of_keyword (k : string) : option const :=
  if bool_decide (k = "True") then Some (CBool true)
  else if bool_decide (k = "False") then Some (CBool false)
  else if bool_decide (k = "None") then Some CNone
  else None.

(** [parse_expr] reads an atom and its trailers; [parse_items] the elements
    of a parenthesised form up to its [")"]; [parse_args] the arguments of a
    call, positional ones first. *)
Fixpoint parse_expr (fuel : nat) : parser expr :=
  match fuel with
  | O => fail OutOfFuel
  | S n =>
      fun ts =>
        match ts with
        | TName x :: ts' => parse_trailers n (EName x) ts'
        | TStr s :: ts' => parse_trailers n (EConst (CStr s)) ts'
        | TInt z :: ts' => parse_trailers n (EConst (CInt z)) ts'
        | TFloat l :: ts' => parse_trailers n (EConst (CFloat l)) ts'
        | TKeyword k :: ts' =>
            match const_of_keyword k with
            | Some c => parse_trailers n (EConst c) ts'
            | None => inl (ExpectedExpression ts)
            end
        | TOp "(" :: ts' =>
            (let* r := parse_items n [] false in
             let '(es, comma) := r in
             match es, comma with
             | [e], false => parse_trailers n e
             | _, _ => parse_trailers n (ETuple es)
             end) ts'
        | _ => inl (ExpectedExpression ts)
        end
  end
with parse_trailers (fuel : nat) (e : expr) : parser expr :=
  match fuel with
  | O => fail OutOfFuel
  | S n =>
      fun ts =>
        match ts with
        | TOp "." :: TName a :: ts' => parse_trailers n (EAttr e a) ts'
        | TOp "." :: ts' => inl (ExpectedName ts')
        | TOp "(" :: ts' =>
            (let* r := parse_args n [] [] in
             parse_trailers n (ECall e (fst r) (snd r))) ts'
        | TOp "[" :: ts' =>
            (let* i := parse_expr n in
             let* _ := expect_close "]" in
             parse_trailers n (ESubscript e i)) ts'
        | _ => inr (e, ts)
        end
  end
with parse_items (fuel : nat) (acc : list expr) (comma : bool)
    : parser (list expr * bool) :=
  match fuel with
  | O => fail OutOfFuel
  | S n =>
      fun ts =>
        match ts with
        | TOp ")" :: ts' => inr ((rev acc, comma), ts')
        | _ =>
            (let* e := parse_expr n in
             fun ts1 =>
               match ts1 with
               | TOp "," :: ts2 => parse_items n (e :: acc) true ts2
               | TOp ")" :: ts2 => inr ((rev (e :: acc), comma), ts2)
               | _ => inl (ExpectedClose ts1)
               end) ts
        end
  end
with parse_args (fuel : nat) (pos : list expr) (kws : list (string * expr))
    : parser (list expr * list (string * expr)) :=
  match fuel with
  | O => fail OutOfFuel
  | S n =>
      let next (pos' : list expr) (kws' : list (string * expr)) : parser _ :=
        fun ts1 =>
          match ts1 with
          | TOp "," :: ts2 => parse_args n pos' kws' ts2
          | TOp ")" :: ts2 => inr ((rev pos', rev kws'), ts2)
          | _ => inl (ExpectedClose ts1)
          end in
      fun ts =>
        match ts with
        | TOp ")" :: ts' => inr ((rev pos, rev kws), ts')
        | TName k :: TOp "=" :: ts' =>
            (let* v := parse_expr n in next pos ((k, v) :: kws)) ts'
        | _ =>
            (let* e := parse_expr n in
             match kws with
             | [] => next (e :: pos) kws
             | _ :: _ => fail PositionalAfterKeyword
             end) ts
        end
  end.

Fixpoint parse_dotted (fuel : nat) (acc : list string) : parser (list string) :=
  match fuel with
  | O => fail OutOfFuel
  | S n =>
      fun ts =>
        match ts with
        | TName a :: TOp "." :: ts' => parse_dotted n (a :: acc) ts'
        | TName a :: ts' => inr (rev (a :: acc), ts')
        | _ => inl (ExpectedName ts)
        end
  end.

Definition parse_as : parser (option string) :=
  fun ts =>
    match ts with
    | TKeyword k :: TName a :: ts' =>
        if bool_decide (k = "as") then inr (Some a, ts') else inr (None, ts)
    | _ => inr (None, ts)
    end.

Definition expect_keyword (k : string) : parser unit :=
  fun ts =>
    match ts with
    | TKeyword k' :: ts' =>
        if bool_decide (k' = k) then inr (tt, ts')
        else inl (ExpectedEndOfStatement ts)
    | _ => inl (ExpectedEndOfStatement ts)
    end.

Definition expect_name : parser string :=
  fun ts =>
    match ts with
    | TName a :: ts' => inr (a, ts')
    | _ => inl (ExpectedName ts)
    end.

(** Python accepts a name, an attribute or a subscript on the left of [=]
    (and tuples of them, which the cells never use). *)
Definition assignable (e : expr) : bool :=
  match e with
  | EName _ | EAttr _ _ | ESubscript _ _ => true
  | _ => false
  end.

Definition parse_expr_stmt (fuel : nat) : parser stmt :=
  let* e := parse_expr fuel in
  fun ts =>
    match ts with
    | TOp "?" :: ts' => inr (SHelp e, ts')
    | TOp "=" :: ts' =>
        if assignable e
        then (let* v := parse_expr fuel in ret (SAssign e v)) ts'
        else inl CannotAssign
    | _ => inr (SExpr e, ts)
    end.

Definition parse_stmt (fuel : nat) : parser stmt :=
  fun ts =>
    match ts with
    | TKeyword k :: ts' =>
        if bool_decide (k = "import") then
          (let* m := parse_dotted fuel [] in
           let* a := parse_as in
           ret (SImport m a)) ts'
        else if bool_decide (k = "from") then
          (let* m := parse_dotted fuel [] in
           let* _ := expect_keyword "import" in
           let* x := expect_name in
           let* a := parse_as in
           ret (SFromImport m x a)) ts'
        else match const_of_keyword k with
             | Some _ => parse_expr_stmt fuel ts
             | None => inl (UnsupportedStatement k)
             end
    | _ => parse_expr_stmt fuel ts
    end.

(** Statements are separated by a newline or by [;]. *)
Fixpoint parse_stmts (fuel efuel : nat) (acc : list stmt) (ts : list token)
    : parse_error + list stmt :=
  match fuel with
  | O => inl OutOfFuel
  | S n =>
      match ts with
      | [] => inr (rev acc)
      | TNewline :: ts' => parse_stmts n efuel acc ts'
      | _ =>
          match parse_stmt efuel ts with
          | inl e => inl e
          | inr (s, ts1) =>
              match ts1 with
              | TNewline :: ts2 => parse_stmts n efuel (s :: acc) ts2
              | TOp ";" :: TNewline :: ts2 => parse_stmts n efuel (s :: acc) ts2
              | TOp ";" :: ts2 => parse_stmts n efuel (s :: acc) ts2
              | _ => inl (ExpectedEndOfStatement ts1)
              end
          end
      end
  end.

Inductive syntax_error : Type :=
| LexError (e : lex_error)
| ParseError (e : parse_error).

Definition parse_tokens (ts : list token) : parse_error + list stmt :=
  parse_stmts (S (length ts)) (2 * length ts + 2) [] ts.

(** What the kernel does with the text of a cell before running it. *)
Definition parse_cell (src : string) : syntax_error + list stmt :=
  match lex src with
  | inl e => inl (LexError e)
  | inr ts =>
      match parse_tokens ts with
      | inl e => inl (ParseError e)
      | inr ss => inr ss
      end
  end.

End Parser.

(** ** The notebooks *)

Module Notebooks.
Import Chars.

(** A code cell as the notebook file stores it: its id, the counter of its
    last recorded execution (absent when the cell was never run), its source
    lines (without the line ends), and the one-line [text/plain] result the
    file records for it, when there is one. *)
Record cell : Type := Cell {
  cell_id : string;
  execution_count : option nat;
  source : list string;
  recorded : option string
}.

#[global] Instance cell_eq_dec : EqDecision cell.
Proof. solve_decision. Defined.

Definition join_lines (ls : list string) : string :=
  match ls with
  | [] => ""
  | l :: ls' => fold_left (fun acc x => acc ++ String newline x) ls' l
  end.

Definition cell_text (c : cell) : string := join_lines (source c).

(** Spatial Dataframes 1: Creating them using GeoPandas (code cells, in order). *)
Definition geopandas_cells : list cell := [
  {| cell_id := "1db2746e";
     execution_count := None;
     source := [("#Import libraries: Pandas (as " ++ dq ++ "pd" ++ dq ++ ") and geopandas (as " ++ dq ++ "gpd" ++ dq ++ ")");
                "import pandas as pd";
                "import geopandas as gpd"];
     recorded := None |};
  {| cell_id := "8ae16e96";
     execution_count := None;
     source := ["#Read the EV Charging station data into a Pandas dataframe";
                "df = pd.read_csv('../data/NC_Charging_Stations.csv')"];
     recorded := None |};
  {| cell_id := "5b16e827";
     execution_count := None;
     source := [("#Examine the first few rows, noting the data include " ++ dq ++ "latitude" ++ dq ++ "  " ++ dq ++ "longitude" ++ dq ++ " columns");
                "df.head()"];
     recorded := None |};
  {| cell_id := "064e516b";
     execution_count := None;
     source := ["#Show info on the command";
                "gpd.points_from_xy?"];
     recorded := None |};
  {| cell_id := "ab1525c9";
     execution_count := None;
     source := ["#Create a geoseries object from the coordinate column";
                "geometries = gpd.points_from_xy(";
                "    x=df['Longitude'],";
                "    y=df['Latitude']";
                ")"];
     recorded := None |};
  {| cell_id := "719de7cd";
     execution_count := None;
     source := ["#View the GeoDataframe() command syntax";
                "gpd.GeoDataFrame?"];
     recorded := None |};
  {| cell_id := "2202346a";
     execution_count := None;
     source := ["#Create a geodataframe from our data";
                "gdf_csv = gpd.GeoDataFrame(";
                "    data=df,";
                "    geometry=geometries,";
                "    crs = 4326";
                ")";
                "#Confirm the type of the object we just created";
                "type(gdf_csv)"];
     recorded := None |};
  {| cell_id := "0fb03212";
     execution_count := None;
     source := ["#Show the first few records of the geodataframe";
                "gdf_csv.head()"];
     recorded := None |};
  {| cell_id := "2ada92fa";
     execution_count := None;
     source := ["#Show the structure of the dataframe";
                "gdf_csv.info()"];
     recorded := None |};
  {| cell_id := "826722d1";
     execution_count := None;
     source := ["#Show the geodataframe's coordinate reference system";
                "gdf_csv.crs"];
     recorded := None |};
  {| cell_id := "bf4a382a";
     execution_count := None;
     source := ["#Show just the EPSG code of the crs";
                "gdf_csv.crs.to_epsg()"];
     recorded := None |};
  {| cell_id := "53939654";
     execution_count := None;
     source := ["#Project to UTM Zone 17N ";
                "gdf_utm = gdf_csv.to_csv(32617)"];
     recorded := None |};
  {| cell_id := "66376b10";
     execution_count := None;
     source := ["#Plot the data";
                "gdf_csv.plot(color='Green', marker='x', alpha=0.3, figsize=(12,7));"];
     recorded := None |};
  {| cell_id := "11a12284";
     execution_count := None;
     source := ["#Explore the read_file() command";
                "gpd.read_file?"];
     recorded := None |};
  {| cell_id := "a7c994ec";
     execution_count := None;
     source := ["#Read the shapefile into a GeoPandas geodataframe";
                "gdf_shp = gpd.read_file('../data/Major_Basins.shp')"];
     recorded := None |};
  {| cell_id := "6daff34d";
     execution_count := None;
     source := ["#Read a *zipped* shapefile into a GeoPandas geodataframe";
                "gdf_shp = gpd.read_file('../data/Major_River_Basins.zip')"];
     recorded := None |};
  {| cell_id := "5e9afb41";
     execution_count := None;
     source := ["#Examine the data";
                "gdf_shp.head()"];
     recorded := None |};
  {| cell_id := "7ecf60e6";
     execution_count := None;
     source := ["#What is the crs of the data";
                "gdf_shp.crs.to_string()"];
     recorded := None |};
  {| cell_id := "a3a00fbd";
     execution_count := None;
     source := ["#Plot the data...";
                "gdf_shp.plot(column='Basin', categorical=True, figsize=(12,7), cmap='Pastel2');"];
     recorded := None |};
  {| cell_id := "1b074272";
     execution_count := None;
     source := ["#read in the file ";
                "gdf_geojson = gpd.read_file(";
                "    filename='../data/Major_River_Basins.geojson',";
                "    driver='GeoJSON')"];
     recorded := None |};
  {| cell_id := "b47d23d2";
     execution_count := None;
     source := ["gdf_geojson.plot();"];
     recorded := None |};
  {| cell_id := "c1c5e436";
     execution_count := None;
     source := ["#Import Fiona";
                "import fiona"];
     recorded := None |};
  {| cell_id := "71e07c36";
     execution_count := None;
     source := ["#Display fiona's active drivers";
                "fiona.supported_drivers"];
     recorded := None |};
  {| cell_id := "e58bade8";
     execution_count := None;
     source := ["#Enable the KML driver in geopandas as a read-write format";
                "gpd.io.file.fiona.drvsupport.supported_drivers['KML'] = 'rw'"];
     recorded := None |};
  {| cell_id := "e23ea255";
     execution_count := None;
     source := ["#Read the IML file";
                "gdf_kml = gpd.read_file('../data/Major_River_Basins.kml',driver='KML')";
                "gdf_kml.plot(column='Name');"];
     recorded := None |}
].

(** Spatial Dataframes 1b: Creating them using the ArcGIS API for Python (lessons/1b-Creating-spatial-data-frames-with-ArcGIS-API.ipynb; code cells, in order). *)
Definition arcgis_cells : list cell := [
  {| cell_id := "a5cf79be";
     execution_count := Some 1;
     source := ["#Import pandas and the arcgis GeoAccessor object";
                "import pandas as pd";
                "from arcgis import GeoAccessor"];
     recorded := None |};
  {| cell_id := "7849d27c";
     execution_count := Some 2;
     source := ["#Read the data into a Pandas dataframe";
                "df = pd.read_csv('../data/NC_Charging_Stations.csv')"];
     recorded := None |};
  {| cell_id := "0888b590";
     execution_count := Some 3;
     source := ["#Review the read_xy() function's syntax";
                "GeoAccessor.from_xy?"];
     recorded := None |};
  {| cell_id := "e6c3bce6";
     execution_count := Some 5;
     source := ["#Read the EV Charging station data into a Pandas dataframe";
                "sdf = GeoAccessor.from_xy(";
                "    df,";
                ("    x_column =" ++ dq ++ "Longitude" ++ dq ++ ",");
                ("    y_column = " ++ dq ++ "Latitude" ++ dq ++ ",");
                "    sr=4326)"];
     recorded := None |};
  {| cell_id := "2f406e70";
     execution_count := Some 6;
     source := ["#View a few records";
                "sdf.head()"];
     recorded := None |};
  {| cell_id := "eeb8e7a1";
     execution_count := Some 7;
     source := ["#Examine the data type of the object we just created";
                "type(sdf)"];
     recorded := Some "pandas.core.frame.DataFrame" |};
  {| cell_id := "fd72f698";
     execution_count := Some 8;
     source := [("#Examine the " ++ dq ++ "spatially enabled" ++ dq ++ " dataframe");
                "type(sdf.spatial)"];
     recorded := Some "arcgis.features.geo._accessor.GeoAccessor" |};
  {| cell_id := "ff373488";
     execution_count := Some 9;
     source := ["#Examine a few properties of this object";
                "sdf.spatial.centroid"];
     recorded := Some "(-79.85503341152294, 35.576922310988046)" |};
  {| cell_id := "a7a4f187";
     execution_count := Some 11;
     source := ["#Plot the data";
                "sdf.spatial.plot()"];
     recorded := None |};
  {| cell_id := "162bdd83";
     execution_count := Some 12;
     source := ["#Explore the GeoAccessor's from_featureclass() command";
                "GeoAccessor.from_featureclass?"];
     recorded := None |};
  {| cell_id := "5b8a3abc";
     execution_count := Some 13;
     source := ["#Read the shapefile into a GeoPandas geodataframe";
                "sdf_shp = GeoAccessor.from_featureclass('../data/Major_Basins.shp')"];
     recorded := None |};
  {| cell_id := "20aeb30a";
     execution_count := Some 16;
     source := ["#Examine the data";
                "sdf_shp.head()"];
     recorded := None |};
  {| cell_id := "15364cb2";
     execution_count := Some 17;
     source := ["#What is the spatial reference of the data";
                "sdf_shp.spatial.sr"];
     recorded := Some "{'wkid': 102100, 'latestWkid': 3857}" |};
  {| cell_id := "ac63ffdc";
     execution_count := Some 19;
     source := ["#Plot the data...";
                "sdf_shp.spatial.plot()"];
     recorded := None |};
  {| cell_id := "9c72dc44";
     execution_count := None;
     source := ["#Explore other import options associated with the GeoAccessor object";
                "GeoAccessor."];
     recorded := None |};
  {| cell_id := "0f3fd78a";
     execution_count := Some 20;
     source := ["#Import the FeatureLayer arcgis package";
                "from arcgis.features import FeatureLayer"];
     recorded := None |};
  {| cell_id := "c1a867a9";
     execution_count := Some 21;
     source := ["#Set the urls where the feature layer are hosted";
                "state_layer_url = 'https://services.nconemap.gov/secure/rest/services/NC1Map_Regional_Boundaries/FeatureServer/0'";
                "county_layer_url = 'https://services.nconemap.gov/secure/rest/services/NC1Map_Regional_Boundaries/FeatureServer/1'"];
     recorded := None |};
  {| cell_id := "9bbf3f83";
     execution_count := Some 22;
     source := ["#Read the data in as a feature layer";
                "state_layer = FeatureLayer(state_layer_url)";
                "type(state_layer)"];
     recorded := Some "arcgis.features.layer.FeatureLayer" |};
  {| cell_id := "70889187";
     execution_count := Some 23;
     source := ["#Convert to a spatial dataframe";
                "sdf_state = GeoAccessor.from_layer(state_layer)"];
     recorded := None |};
  {| cell_id := "74040082";
     execution_count := Some 25;
     source := ["#Explore ";
                "sdf_state.info()"];
     recorded := None |};
  {| cell_id := "a5cfee73";
     execution_count := Some 26;
     source := ["#Get the spatial reference";
                "sdf_state.spatial.sr"];
     recorded := Some "{'wkid': 32119, 'latestWkid': 32119}" |};
  {| cell_id := "83c84325";
     execution_count := Some 27;
     source := ["sdf_state.spatial.plot()"];
     recorded := None |};
  {| cell_id := "1bed806d";
     execution_count := None;
     source := [];
     recorded := None |}
].

Definition notebooks : list (list cell) := [geopandas_cells; arcgis_cells].

Definition all_cells : list cell := geopandas_cells ++ arcgis_cells.

Definition find_cell (id : string) (cs : list cell) : option cell :=
  List.find (fun c => bool_decide (cell_id c = id)) cs.

End Notebooks.

(** ** The notebook kernel *)

Module Kernel.
Import Syntax Parser Notebooks.

(** A Python exception: its class and its message. *)
Record exn : Type := Exn { exn_type : string; exn_msg : string }.

(** Values: Python's own literals and tuples, and objects owned by a
    library (modules, functions, dataframes, ...). *)
Inductive value (O : Type) : Type :=
| VNone
| VBool (b : bool)
| VInt (n : Z)
| VFloat (lit : string)
| VStr (s : string)
| VTuple (vs : list (value O))
| VObj (o : O).

Arguments VNone {O}.
Arguments VBool {O} b.
Arguments VInt {O} n.
Arguments VFloat {O} lit.
Arguments VStr {O} s.
Arguments VTuple {O} vs.
Arguments VObj {O} o.

(** The result of running code against a state of type [S]: a value, or an
    exception; either way with the state reached. *)
Inductive outcome (S A : Type) : Type :=
| Ok (a : A) (s : S)
| Raise (e : exn) (s : S).

Arguments Ok {S A} a s.
Arguments Raise {S A} e s.

Definition state_of {S A} (r : outcome S A) : S :=
  match r with Ok _ s | Raise _ s => s end.

(** The interface between a cell and the code it calls.  Nothing behind it
    is part of the notebooks. *)
Class Library : Type := {
  obj : Type;
  lstate : Type;                   (* library-owned state and the outside world *)
  lib_builtin : string -> option (value obj);
  lib_import : list string -> lstate -> outcome lstate (value obj);
  lib_import_from : list string -> string -> lstate -> outcome lstate (value obj);
  lib_getattr : value obj -> string -> lstate -> outcome lstate (value obj);
  lib_setattr : value obj -> string -> value obj -> lstate -> outcome lstate unit;
  lib_getitem : value obj -> value obj -> lstate -> outcome lstate (value obj);
  lib_setitem : value obj -> value obj -> value obj -> lstate -> outcome lstate unit;
  lib_call : value obj -> list (value obj) -> list (string * value obj) ->
             lstate -> outcome lstate (value obj)
}.

(** A namespace is a Python dictionary from names to values: binding a name
    again replaces its value in place, a new name goes last. *)
Section Namespace.
Context {V : Type}.

Fixpoint ns_lookup (x : string) (ns : list (string * V)) : option V :=
  match ns with
  | [] => None
  | (y, v) :: ns' => if bool_decide (y = x) then Some v else ns_lookup x ns'
  end.

Fixpoint ns_bind (x : string) (v : V) (ns : list (string * V)) : list (string * V) :=
  match ns with
  | [] => [(x, v)]
  | (y, w) :: ns' =>
      if bool_decide (y = x) then (x, v) :: ns' else (y, w) :: ns_bind x v ns'
  end.

Lemma ns_lookup_bind_eq (x : string) (v : V) (ns : list (string * V)) :
  ns_lookup x (ns_bind x v ns) = Some v.
Proof.
  induction ns as [|[y w] ns IH]; simpl.
  - by rewrite bool_decide_eq_true_2.
  - destruct (bool_decide (y = x)) eqn:E; simpl.
    + by rewrite bool_decide_eq_true_2.
    + by rewrite E.
Qed.

Lemma ns_lookup_bind_ne (x y : string) (v : V) (ns : list (string * V)) :
  x <> y -> ns_lookup y (ns_bind x v ns) = ns_lookup y ns.
Proof.
  intros Hne. induction ns as [|[z w] ns IH]; simpl.
  - by rewrite bool_decide_eq_false_2.
  - destruct (bool_decide (z = x)) eqn:E; simpl.
    + apply bool_decide_eq_true_1 in E. subst z.
      by rewrite !bool_decide_eq_false_2.
    + by rewrite IH.
Qed.

End Namespace.

Record kernel_state (O S : Type) : Type := KState {
  env : list (string * value O);
  lib : S
}.

Arguments KState {O S} env lib.
Arguments env {O S} k.
Arguments lib {O S} k.

Section Interpreter.
Context {L : Library}.

Abbreviation val := (value obj).
Abbreviation namespace := (list (string * value obj)).

(** The kernel: the notebook's global namespace and the library state. *)
Definition kstate : Type := kernel_state obj lstate.

Definition value_of_const (c : const) : val :=
  match c with
  | CStr s => VStr s
  | CInt n => VInt n
  | CFloat l => VFloat l
  | CBool b => VBool b
  | CNone => VNone
  end.

Definition name_error (x : string) : exn :=
  Exn "NameError" ("name '" ++ x ++ "' is not defined").

Definition lookup_name (ns : namespace) (x : string) (s : lstate)
    : outcome lstate val :=
  match ns_lookup x ns with
  | Some v => Ok v s
  | None =>
      match lib_builtin x with
      | Some v => Ok v s
      | None => Raise (name_error x) s
      end
  end.

(** Left-to-right evaluation of a sequence, stopping at the first
    exception. *)
Definition eval_seq {A} (ev : A -> lstate -> outcome lstate val)
    : list A -> lstate -> outcome lstate (list val) :=
  fix go (xs : list A) (s : lstate) : outcome lstate (list val) :=
    match xs with
    | [] => Ok [] s
    | x :: xs' =>
        match ev x s with
        | Raise e s1 => Raise e s1
        | Ok v s1 =>
            match go xs' s1 with
            | Raise e s2 => Raise e s2
            | Ok vs s2 => Ok (v :: vs) s2
            end
        end
    end.

Definition eval_kw (ev : expr -> lstate -> outcome lstate val)
    : list (string * expr) -> lstate -> outcome lstate (list (string * val)) :=
  fix go (xs : list (string * expr)) (s : lstate) :=
    match xs with
    | [] => Ok [] s
    | (k, x) :: xs' =>
        match ev x s with
        | Raise e s1 => Raise e s1
        | Ok v s1 =>
            match go xs' s1 with
            | Raise e s2 => Raise e s2
            | Ok vs s2 => Ok ((k, v) :: vs) s2
            end
        end
    end.

(** Python's order: the callee, the positional arguments, the keyword
    arguments, then the call. *)
Fixpoint eval (ns : namespace) (e : expr) (s : lstate) : outcome lstate val :=
  match e with
  | EName x => lookup_name ns x s
  | EConst c => Ok (value_of_const c) s
  | EAttr e1 a =>
      match eval ns e1 s with
      | Raise x s1 => Raise x s1
      | Ok v s1 => lib_getattr v a s1
      end
  | ECall f args kws =>
      match eval ns f s with
      | Raise x s1 => Raise x s1
      | Ok fv s1 =>
          match eval_seq (eval ns) args s1 with
          | Raise x s2 => Raise x s2
          | Ok avs s2 =>
              match eval_kw (eval ns) kws s2 with
              | Raise x s3 => Raise x s3
              | Ok kvs s3 => lib_call fv avs kvs s3
              end
          end
      end
  | ESubscript e1 i =>
      match eval ns e1 s with
      | Raise x s1 => Raise x s1
      | Ok v s1 =>
          match eval ns i s1 with
          | Raise x s2 => Raise x s2
          | Ok iv s2 => lib_getitem v iv s2
          end
      end
  | ETuple es =>
      match eval_seq (eval ns) es s with
      | Raise x s1 => Raise x s1
      | Ok vs s1 => Ok (VTuple vs) s1
      end
  end.

(** The name an [import] binds: [import a.b.c] binds [a], [import a.b as x]
    binds [x]. *)
Definition import_binder (m : list string) (asname : option string) : string :=
  match asname with
  | Some a => a
  | None => hd "" m
  end.

Definition import_target (m : list string) (asname : option string) : list string :=
  match asname with
  | Some _ => m
  | None => take 1 m
  end.

(** A statement yields the value it displays, if any, and the new kernel
    state.  The right-hand side of an assignment is evaluated before the
    parts of its target. *)
Definition exec_stmt (st : stmt) (k : kstate) : outcome kstate (option val) :=
  match st with
  | SImport m asname =>
      match lib_import m (lib k) with
      | Raise x s1 => Raise x (KState (env k) s1)
      | Ok _ s1 =>
          match lib_import (import_target m asname) s1 with
          | Raise x s2 => Raise x (KState (env k) s2)
          | Ok v s2 => Ok None (KState (ns_bind (import_binder m asname) v (env k)) s2)
          end
      end
  | SFromImport m x asname =>
      match lib_import_from m x (lib k) with
      | Raise e s1 => Raise e (KState (env k) s1)
      | Ok v s1 => Ok None (KState (ns_bind (default x asname) v (env k)) s1)
      end
  | SAssign target rhs =>
      match eval (env k) rhs (lib k) with
      | Raise x s1 => Raise x (KState (env k) s1)
      | Ok v s1 =>
          match target with
          | EName x => Ok None (KState (ns_bind x v (env k)) s1)
          | ESubscript c i =>
              match eval (env k) c s1 with
              | Raise x s2 => Raise x (KState (env k) s2)
              | Ok cv s2 =>
                  match eval (env k) i s2 with
                  | Raise x s3 => Raise x (KState (env k) s3)
                  | Ok iv s3 =>
                      match lib_setitem cv iv v s3 with
                      | Raise x s4 => Raise x (KState (env k) s4)
                      | Ok _ s4 => Ok None (KState (env k) s4)
                      end
                  end
              end
          | EAttr o a =>
              match eval (env k) o s1 with
              | Raise x s2 => Raise x (KState (env k) s2)
              | Ok ov s2 =>
                  match lib_setattr ov a v s2 with
                  | Raise x s3 => Raise x (KState (env k) s3)
                  | Ok _ s3 => Ok None (KState (env k) s3)
                  end
              end
          | _ => Raise (Exn "SyntaxError" "cannot assign to expression")
                       (KState (env k) s1)
          end
      end
  | SExpr e =>
      match eval (env k) e (lib k) with
      | Raise x s1 => Raise x (KState (env k) s1)
      | Ok v s1 => Ok (Some v) (KState (env k) s1)
      end
  | SHelp _ => Ok None k          (* IPython prints documentation *)
  end.

(** The statements of a cell run in order; the first exception ends the
    cell.  The cell displays what its last statement displays. *)
Fixpoint exec_stmts (sts : list stmt) (shown : option val) (k : kstate)
    : outcome kstate (option val) :=
  match sts with
  | [] => Ok shown k
  | st :: sts' =>
      match exec_stmt st k with
      | Raise x k1 => Raise x k1
      | Ok d k1 => exec_stmts sts' d k1
      end
  end.

Definition syntax_exn : exn := Exn "SyntaxError" "invalid syntax".

(** Running a cell: its text is parsed whole before anything runs. *)
Definition run_cell (c : cell) (k : kstate) : outcome kstate (option val) :=
  match parse_cell (cell_text c) with
  | inl _ => Raise syntax_exn k
  | inr sts => exec_stmts sts None k
  end.

(** Running the cells one after the other, whatever each one does: the
    outcomes in order, and the final kernel state. *)
Fixpoint run_cells (cs : list cell) (k : kstate)
    : list (outcome kstate (option val)) * kstate :=
  match cs with
  | [] => ([], k)
  | c :: cs' =>
      let r := run_cell c k in
      let '(rs, k') := run_cells cs' (state_of r) in
      (r :: rs, k')
  end.

(** "Run All": the first cell that raises stops the run. *)
Fixpoint run_all (cs : list cell) (k : kstate)
    : option (string * exn) * kstate :=
  match cs with
  | [] => (None, k)
  | c :: cs' =>
      match run_cell c k with
      | Raise x k1 => (Some (cell_id c, x), k1)
      | Ok _ k1 => run_all cs' k1
      end
  end.

Definition fresh (s : lstate) : kstate := KState [] s.

End Interpreter.

End Kernel.

(** ** A reference model of the libraries behind the cells

    pandas, GeoPandas, Fiona and the ArcGIS API are not part of the
    repository.  This module models the calls the cells make, from the
    libraries' documented behaviour, the lessons' own narrative and the results
    recorded in the notebook files.  Attributes and functions no cell touches
    are not modelled (asking for one raises [AttributeError]); float64 values
    are kept as exact decimals; dataframes are values, since no cell updates
    one in place.  The one object the cells do update in place, Fiona's driver
    registry, lives in the library state and is reached by reference. *)

Module RefLib.
Import Kernel.

(** *** Data *)

Record decimal : Type := Decimal { mantissa : Z; exponent : Z }.

Inductive datum : Type :=
| DNum (d : decimal)
| DText (s : string)
| DMissing.

Inductive geometry : Type :=
| GPoint (x y : decimal)
| GPolyline (paths : list (list (decimal * decimal)))
| GPolygon (rings : list (list (decimal * decimal))).

Definition is_point (g : geometry) : bool :=
  match g with GPoint _ _ => true | _ => false end.

(** A coordinate reference system, by its well-known id. *)
Record sref : Type := SRef { wkid : Z; latest_wkid : option Z }.

Definition columns : Type := list (string * list datum).

Inductive frame_class : Type := PandasDataFrame | GeoDataFrame.

(** A dataframe: its Python class, its attribute columns, and, when it is
    spatial, its geometry column (name and shapes) and reference system. *)
Record frame : Type := Frame {
  f_class : frame_class;
  f_columns : columns;
  f_geometry : option (string * list geometry);
  f_sr : option sref
}.

(** *** The outside world *)

Record vector_data : Type := VectorData {
  vd_columns : columns;
  vd_shapes : list geometry;
  vd_sr : option sref
}.

(** What a path holds: a delimited text table, a vector dataset together
    with the OGR driver that opens it, or something no reader accepts. *)
Inductive file : Type :=
| FCsv (cols : columns)
| FVector (driver : string) (data : vector_data)
| FOther.

Record world : Type := World {
  w_files : gmap string file;                (* the disk, by path *)
  w_layers : gmap string vector_data;        (* feature services, by URL *)
  w_project : Z -> Z -> geometry -> geometry (* source id, target id *)
}.

Definition disk_file (w : world) (path : string) : option file :=
  w_files w !! path.

Definition remote_layer (w : world) (url : string) : option vector_data :=
  w_layers w !! url.

Definition write_file (w : world) (path : string) (f : file) : world :=
  World (<[path := f]> (w_files w)) (w_layers w) (w_project w).

(** *** Objects *)

Inductive func : Type :=
| F_read_csv
| F_points_from_xy
| F_read_file
| F_from_xy
| F_from_featureclass
| F_from_layer.

Inductive obj : Type :=
| OModule (path : list string)
| OFunc (f : func)
| OClass (qualname : string)
| OMethod (self : obj) (name : string)       (* a bound method *)
| OFrame (f : frame)
| OSeries (data : list datum)
| OGeometryArray (shapes : list geometry)
| OCrs (sr : sref)                            (* the [crs] of a geodataframe *)
| OAccessor (f : frame)                       (* [df.spatial] *)
| OSRef (sr : sref)                           (* [df.spatial.sr] *)
| OLayer (url : string)
| ODrivers                                    (* Fiona's registry, by reference *)
| OOpaque (what : string).                   (* plots, widgets, rendered text *)

Abbreviation val := (value obj).

Definition class_type : string := "type".
Definition class_DataFrame : string := "pandas.core.frame.DataFrame".
Definition class_GeoDataFrame : string := "geopandas.geodataframe.GeoDataFrame".
Definition class_GeoAccessor : string := "arcgis.features.geo._accessor.GeoAccessor".
Definition class_FeatureLayer : string := "arcgis.features.layer.FeatureLayer".

Definition frame_class_name (c : frame_class) : string :=
  match c with
  | PandasDataFrame => class_DataFrame
  | GeoDataFrame => class_GeoDataFrame
  end.

(** The class [type(v)] answers. *)
Definition type_name (v : val) : string :=
  match v with
  | VNone => "NoneType"
  | VBool _ => "bool"
  | VInt _ => "int"
  | VFloat _ => "float"
  | VStr _ => "str"
  | VTuple _ => "tuple"
  | VObj o =>
      match o with
      | OModule _ => "module"
      | OFunc _ => "function"
      | OClass _ => class_type
      | OMethod _ _ => "method"
      | OFrame f => frame_class_name (f_class f)
      | OSeries _ => "pandas.core.series.Series"
      | OGeometryArray _ => "geopandas.array.GeometryArray"
      | OCrs _ => "pyproj.crs.crs.CRS"
      | OAccessor _ => class_GeoAccessor
      | OSRef _ => "arcgis.geometry._types.SpatialReference"
      | OLayer _ => class_FeatureLayer
      | ODrivers => "dict"
      | OOpaque what => what
      end
  end.

(** The library state: the world, Fiona's [supported_drivers] dictionary
    (driver name to the modes it is enabled for), the packages imported so
    far, and the accesses made to the outside world. *)
(** What the library did to the outside world, for the record. *)
Inductive access : Type :=
| Opened (path : string)          (* a local file was opened for reading *)
| Fetched (url : string)          (* a remote service was queried *)
| Wrote (path : string).          (* a local file was written *)

#[global] Instance access_eq_dec : EqDecision access.
Proof. solve_decision. Defined.

Record lstate : Type := LState {
  ls_world : world;
  ls_drivers : gmap string string;
  ls_loaded : list string;
  ls_trace : list access              (* latest first *)
}.

Definition log (a : access) (s : lstate) : lstate :=
  LState (ls_world s) (ls_drivers s) (ls_loaded s) (a :: ls_trace s).

(** The mode string the registry holds for a driver, and the registry after
    [supported_drivers[d] = m]. *)
Definition driver_mode (reg : gmap string string) (d : string) : option string :=
  reg !! d.

Definition enable_driver (reg : gmap string string) (d m : string)
    : gmap string string :=
  <[d := m]> reg.

Definition raise {A} (ty msg : string) (s : lstate) : outcome lstate A :=
  Raise (Exn ty msg) s.

(** *** Columns and shapes *)

Fixpoint get_column (name : string) (cols : columns) : option (list datum) :=
  match cols with
  | [] => None
  | (n, d) :: cols' => if bool_decide (n = name) then Some d else get_column name cols'
  end.

Definition n_rows (cols : columns) : nat :=
  match cols with
  | [] => 0
  | (_, d) :: _ => length d
  end.

(** A geometry column fits a table when it has one shape per row. *)
Definition rows_match (shapes : list geometry) (cols : columns) : bool :=
  Nat.eqb (length shapes) (n_rows cols).

(** Pairing two coordinate series into points: both must be numeric
    throughout and of the same length. *)
Fixpoint point_array (xs ys : list datum) : option (list geometry) :=
  match xs, ys with
  | [], [] => Some []
  | DNum x :: xs', DNum y :: ys' =>
      match point_array xs' ys' with
      | Some ps => Some (GPoint x y :: ps)
      | None => None
      end
  | _, _ => None
  end.

Definition head_frame (n : nat) (f : frame) : frame :=
  Frame (f_class f)
        (map (fun c => (fst c, take n (snd c))) (f_columns f))
        (match f_geometry f with
         | Some (g, shapes) => Some (g, take n shapes)
         | None => None
         end)
        (f_sr f).

(** Argument binding: by keyword, else by position. *)
Fixpoint kwarg (name : string) (kws : list (string * val)) : option val :=
  match kws with
  | [] => None
  | (k, v) :: kws' => if bool_decide (k = name) then Some v else kwarg name kws'
  end.

Definition arg (pos : nat) (name : string) (args : list val)
    (kws : list (string * val)) : option val :=
  match kwarg name kws with
  | Some v => Some v
  | None => args !! pos
  end.

(** *** Modules and imports *)

Definition installed : list (list string) :=
  [ ["pandas"]; ["geopandas"]; ["geopandas"; "io"]; ["geopandas"; "io"; "file"];
    ["fiona"]; ["fiona"; "drvsupport"]; ["arcgis"]; ["arcgis"; "features"] ].

(** The attributes of each module the cells reach.  [geopandas.io.file]
    holds the Fiona module itself, and [fiona.supported_drivers] is the
    dictionary defined in [fiona.drvsupport]: one object under three names. *)
Definition module_attr (m : list string) (a : string) : option obj :=
  if bool_decide (m = ["pandas"]) then
    if bool_decide (a = "read_csv") then Some (OFunc F_read_csv)
    else if bool_decide (a = "DataFrame") then Some (OClass class_DataFrame)
    else None
  else if bool_decide (m = ["geopandas"]) then
    if bool_decide (a = "points_from_xy") then Some (OFunc F_points_from_xy)
    else if bool_decide (a = "GeoDataFrame") then Some (OClass class_GeoDataFrame)
    else if bool_decide (a = "read_file") then Some (OFunc F_read_file)
    else if bool_decide (a = "io") then Some (OModule ["geopandas"; "io"])
    else None
  else if bool_decide (m = ["geopandas"; "io"]) then
    if bool_decide (a = "file") then Some (OModule ["geopandas"; "io"; "file"])
    else None
  else if bool_decide (m = ["geopandas"; "io"; "file"]) then
    if bool_decide (a = "fiona") then Some (OModule ["fiona"]) else None
  else if bool_decide (m = ["fiona"]) then
    if bool_decide (a = "supported_drivers") then Some ODrivers
    else if bool_decide (a = "drvsupport") then Some (OModule ["fiona"; "drvsupport"])
    else None
  else if bool_decide (m = ["fiona"; "drvsupport"]) then
    if bool_decide (a = "supported_drivers") then Some ODrivers else None
  else if bool_decide (m = ["arcgis"]) then
    if bool_decide (a = "GeoAccessor") then Some (OClass class_GeoAccessor)
    else if bool_decide (a = "features") then Some (OModule ["arcgis"; "features"])
    else None
  else if bool_decide (m = ["arcgis"; "features"]) then
    if bool_decide (a = "GeoAccessor") then Some (OClass class_GeoAccessor)
    else if bool_decide (a = "FeatureLayer") then Some (OClass class_FeatureLayer)
    else None
  else None.

Definition mark_loaded (m : list string) (s : lstate) : lstate :=
  LState (ls_world s) (ls_drivers s) (hd "" m :: ls_loaded s) (ls_trace s).

Definition import (m : list string) (s : lstate) : outcome lstate val :=
  if bool_decide (m ∈ installed)
  then Ok (VObj (OModule m)) (mark_loaded m s)
  else raise "ModuleNotFoundError" ("No module named '" ++ hd "" m ++ "'") s.

Definition import_from (m : list string) (x : string) (s : lstate)
    : outcome lstate val :=
  match import m s with
  | Raise e s1 => Raise e s1
  | Ok _ s1 =>
      match module_attr m x with
      | Some o => Ok (VObj o) s1
      | None => raise "ImportError" ("cannot import name '" ++ x ++ "'") s1
      end
  end.

Definition builtin (x : string) : option val :=
  if bool_decide (x = "type") then Some (VObj (OClass class_type)) else None.

(** *** Attributes *)

Definition frame_methods (c : frame_class) : list string :=
  match c with
  | PandasDataFrame => ["head"; "info"; "plot"; "to_csv"]
  | GeoDataFrame => ["head"; "info"; "plot"; "to_csv"; "to_crs"]
  end.

Definition attribute_error {A} (v : val) (a : string) (s : lstate)
    : outcome lstate A :=
  raise "AttributeError"
        ("'" ++ type_name v ++ "' object has no attribute '" ++ a ++ "'") s.

Definition is_geo (f : frame) : bool :=
  match f_class f with GeoDataFrame => true | PandasDataFrame => false end.

(** The ArcGIS package registers its [spatial] accessor on every pandas
    dataframe when it is imported. *)
Definition spatial_registered (s : lstate) : bool :=
  bool_decide ("arcgis" ∈ ls_loaded s).

Definition frame_attr (f : frame) (a : string) (s : lstate) : outcome lstate val :=
  if bool_decide (a ∈ frame_methods (f_class f))
  then Ok (VObj (OMethod (OFrame f) a)) s
  else if is_geo f && bool_decide (a = "crs") then
    match f_sr f with
    | Some sr => Ok (VObj (OCrs sr)) s
    | None => Ok VNone s
    end
  else if spatial_registered s && bool_decide (a = "spatial")
  then Ok (VObj (OAccessor f)) s
  else match get_column a (f_columns f) with
       | Some d => Ok (VObj (OSeries d)) s
       | None => attribute_error (VObj (OFrame f)) a s
       end.

Definition accessor_attr (f : frame) (a : string) (s : lstate) : outcome lstate val :=
  match f_geometry f with
  | None => raise "Exception" "Spatial column not defined" s
  | Some _ =>
      if bool_decide (a = "sr") then
        match f_sr f with
        | Some sr => Ok (VObj (OSRef sr)) s
        | None => Ok VNone s
        end
      else if bool_decide (a = "centroid") then Ok (VObj (OOpaque "tuple")) s
      else if bool_decide (a = "plot") then Ok (VObj (OMethod (OAccessor f) a)) s
      else attribute_error (VObj (OAccessor f)) a s
  end.

Definition getattr (v : val) (a : string) (s : lstate) : outcome lstate val :=
  match v with
  | VObj (OModule m) =>
      match module_attr m a with
      | Some o => Ok (VObj o) s
      | None => attribute_error v a s
      end
  | VObj (OClass c) =>
      if bool_decide (c = class_GeoAccessor) then
        if bool_decide (a = "from_xy") then Ok (VObj (OFunc F_from_xy)) s
        else if bool_decide (a = "from_featureclass")
        then Ok (VObj (OFunc F_from_featureclass)) s
        else if bool_decide (a = "from_layer") then Ok (VObj (OFunc F_from_layer)) s
        else attribute_error v a s
      else attribute_error v a s
  | VObj (OFrame f) => frame_attr f a s
  | VObj (OCrs sr) =>
      if bool_decide (a ∈ ["to_epsg"; "to_string"])
      then Ok (VObj (OMethod (OCrs sr) a)) s
      else attribute_error v a s
  | VObj (OAccessor f) => accessor_attr f a s
  | _ => attribute_error v a s
  end.

Definition setattr (v : val) (a : string) (x : val) (s : lstate)
    : outcome lstate unit :=
  attribute_error v a s.

(** *** Subscripts *)

Definition key_error {A} (k : string) (s : lstate) : outcome lstate A :=
  raise "KeyError" ("'" ++ k ++ "'") s.

Definition getitem (v i : val) (s : lstate) : outcome lstate val :=
  match v, i with
  | VObj (OFrame f), VStr c =>
      match f_geometry f with
      | Some (g, shapes) =>
          if bool_decide (c = g) then Ok (VObj (OGeometryArray shapes)) s
          else match get_column c (f_columns f) with
               | Some d => Ok (VObj (OSeries d)) s
               | None => key_error c s
               end
      | None =>
          match get_column c (f_columns f) with
          | Some d => Ok (VObj (OSeries d)) s
          | None => key_error c s
          end
      end
  | VObj ODrivers, VStr d =>
      match driver_mode (ls_drivers s) d with
      | Some m => Ok (VStr m) s
      | None => key_error d s
      end
  | _, _ => raise "TypeError" ("'" ++ type_name v ++ "' object is not subscriptable") s
  end.

(** [d[k] = v] on the driver registry updates the registry every later
    call sees. *)
Definition setitem (v i x : val) (s : lstate) : outcome lstate unit :=
  match v, i, x with
  | VObj ODrivers, VStr d, VStr m =>
      Ok tt (LState (ls_world s) (enable_driver (ls_drivers s) d m) (ls_loaded s)
                    (ls_trace s))
  | _, _, _ =>
      raise "TypeError"
            ("'" ++ type_name v ++ "' object does not support item assignment") s
  end.

(** *** Calls *)

Definition type_error {A} (msg : string) (s : lstate) : outcome lstate A :=
  raise "TypeError" msg s.

Definition driver_error {A} (msg : string) (s : lstate) : outcome lstate A :=
  raise "fiona.errors.DriverError" msg s.

Definition vector_frame (c : frame_class) (gname : string) (vd : vector_data)
    : frame :=
  Frame c (vd_columns vd) (Some (gname, vd_shapes vd)) (vd_sr vd).

(** [pd.read_csv(path)] *)
Definition read_csv (path : string) (s0 : lstate) : outcome lstate val :=
  let s := log (Opened path) s0 in
  match disk_file (ls_world s) path with
  | None =>
      raise "FileNotFoundError" ("No such file or directory: '" ++ path ++ "'") s
  | Some (FCsv cols) => Ok (VObj (OFrame (Frame PandasDataFrame cols None None))) s
  | Some _ => raise "pandas.errors.ParserError" "Error tokenizing data" s
  end.

Definition readable (mode : string) : bool :=
  bool_decide ("r"%char ∈ list_ascii_of_string mode).

(** [gpd.read_file(path, driver=...)]: Fiona opens the dataset (with the named
    driver only, when one is given) and then checks the driver that opened it
    against its registry of supported drivers. *)
Definition read_file (path : string) (driver : option string) (s0 : lstate)
    : outcome lstate val :=
  let s := log (Opened path) s0 in
  match disk_file (ls_world s) path with
  | None => driver_error (path ++ ": No such file or directory") s
  | Some (FVector fmt vd) =>
      if match driver with Some d => bool_decide (d = fmt) | None => true end then
        match driver_mode (ls_drivers s) fmt with
        | None => driver_error ("unsupported driver: '" ++ fmt ++ "'") s
        | Some mode =>
            if readable mode
            then Ok (VObj (OFrame (vector_frame GeoDataFrame "geometry" vd))) s
            else driver_error "unsupported mode: 'r'" s
        end
      else driver_error
             ("'" ++ path ++ "' not recognized as a supported file format.") s
  | Some _ =>
      driver_error ("'" ++ path ++ "' not recognized as a supported file format.") s
  end.

(** [gpd.GeoDataFrame(data, geometry=..., crs=...)] *)
Definition new_geodataframe (data : option val) (geom crs : option val)
    (s : lstate) : outcome lstate val :=
  match data with
  | Some (VObj (OFrame f)) =>
      let sr := match crs with
                | Some (VInt z) => Some (SRef z None)
                | _ => f_sr f
                end in
      match geom with
      | Some (VObj (OGeometryArray shapes)) =>
          if rows_match shapes (f_columns f)
          then Ok (VObj (OFrame (Frame GeoDataFrame (f_columns f)
                                       (Some ("geometry", shapes)) sr))) s
          else raise "ValueError"
                     "Length of values does not match length of index" s
      | None | Some VNone =>
          Ok (VObj (OFrame (Frame GeoDataFrame (f_columns f) (f_geometry f) sr))) s
      | Some _ => type_error "Input must be valid geometry objects" s
      end
  | _ => type_error "unsupported data for GeoDataFrame" s
  end.

(** [GeoAccessor.from_xy(df, x_column, y_column, sr=4326)] *)
Definition from_xy (df xc yc sr : option val) (s : lstate) : outcome lstate val :=
  match df, xc, yc with
  | Some (VObj (OFrame f)), Some (VStr x), Some (VStr y) =>
      match get_column x (f_columns f), get_column y (f_columns f) with
      | Some xs, Some ys =>
          match point_array xs ys with
          | Some shapes =>
              let id := match sr with Some (VInt z) => z | _ => 4326%Z end in
              Ok (VObj (OFrame (Frame PandasDataFrame (f_columns f)
                                      (Some ("SHAPE", shapes))
                                      (Some (SRef id None))))) s
          | None => raise "ValueError" "could not convert coordinates to float" s
          end
      | None, _ => key_error x s
      | _, None => key_error y s
      end
  | _, _, _ => type_error "from_xy() missing required arguments" s
  end.

(** [GeoAccessor.from_featureclass(location)] *)
Definition from_featureclass (location : option val) (s : lstate)
    : outcome lstate val :=
  match location with
  | Some (VStr path) =>
      let s := log (Opened path) s in
      match disk_file (ls_world s) path with
      | Some (FVector _ vd) =>
          Ok (VObj (OFrame (vector_frame PandasDataFrame "SHAPE" vd))) s
      | Some _ => raise "Exception" "Could not load the dataset" s
      | None => raise "Exception" ("Could not load the dataset: " ++ path) s
      end
  | _ => type_error "from_featureclass() missing required argument" s
  end.

(** [GeoAccessor.from_layer(layer)] queries the service behind the layer. *)
Definition from_layer (layer : option val) (s : lstate) : outcome lstate val :=
  match layer with
  | Some (VObj (OLayer url)) =>
      let s := log (Fetched url) s in
      match remote_layer (ls_world s) url with
      | Some vd => Ok (VObj (OFrame (vector_frame PandasDataFrame "SHAPE" vd))) s
      | None => raise "ConnectionError" ("Failed to reach " ++ url) s
      end
  | _ => type_error "from_layer() expects a layer" s
  end.

(** [df.to_csv(path_or_buf)]: without a target the text is returned, a path
    is written to, and anything else is refused before a file is opened. *)
Definition to_csv (f : frame) (target : option val) (s : lstate)
    : outcome lstate val :=
  match target with
  | None | Some VNone => Ok (VObj (OOpaque "str")) s
  | Some (VStr path) =>
      Ok VNone (LState (write_file (ls_world s) path (FCsv (f_columns f)))
                       (ls_drivers s) (ls_loaded s) (Wrote path :: ls_trace s))
  | Some v =>
      raise "ValueError"
            ("Invalid file path or buffer object type: <class '"
             ++ type_name v ++ "'>") s
  end.

(** [gdf.to_crs(crs)] *)
Definition to_crs (f : frame) (target : option val) (s : lstate)
    : outcome lstate val :=
  match target with
  | Some (VInt z) =>
      match f_sr f, f_geometry f with
      | Some src, Some (g, shapes) =>
          Ok (VObj (OFrame (Frame GeoDataFrame (f_columns f)
                  (Some (g, map (w_project (ls_world s) (wkid src) z) shapes))
                  (Some (SRef z None))))) s
      | _, _ =>
          raise "ValueError" "Cannot transform naive geometries." s
      end
  | _ => raise "ValueError" "Must pass either crs or epsg." s
  end.

Definition plot_frame (f : frame) (kws : list (string * val)) (s : lstate)
    : outcome lstate val :=
  match kwarg "column" kws with
  | Some (VStr c) =>
      match get_column c (f_columns f) with
      | Some _ => Ok (VObj (OOpaque "matplotlib.axes.Axes")) s
      | None => key_error c s
      end
  | _ => Ok (VObj (OOpaque "matplotlib.axes.Axes")) s
  end.

Definition frame_method (f : frame) (name : string) (args : list val)
    (kws : list (string * val)) (s : lstate) : outcome lstate val :=
  if bool_decide (name = "head") then
    match arg 0 "n" args kws with
    | None => Ok (VObj (OFrame (head_frame 5 f))) s
    | Some (VInt n) => Ok (VObj (OFrame (head_frame (Z.to_nat n) f))) s
    | Some _ => type_error "head() expects an integer" s
    end
  else if bool_decide (name = "info") then Ok VNone s
  else if bool_decide (name = "plot") then plot_frame f kws s
  else if bool_decide (name = "to_csv") then to_csv f (arg 0 "path_or_buf" args kws) s
  else if bool_decide (name = "to_crs") then to_crs f (arg 0 "crs" args kws) s
  else type_error ("'" ++ name ++ "' is not callable") s.

Definition call_func (f : func) (args : list val) (kws : list (string * val))
    (s : lstate) : outcome lstate val :=
  match f with
  | F_read_csv =>
      match arg 0 "filepath_or_buffer" args kws with
      | Some (VStr path) => read_csv path s
      | _ => raise "ValueError" "Invalid file path or buffer object type" s
      end
  | F_points_from_xy =>
      match arg 0 "x" args kws, arg 1 "y" args kws with
      | Some (VObj (OSeries xs)), Some (VObj (OSeries ys)) =>
          match point_array xs ys with
          | Some shapes => Ok (VObj (OGeometryArray shapes)) s
          | None => raise "ValueError" "x and y arrays must be numeric and equal length" s
          end
      | _, _ => type_error "points_from_xy() expects two series" s
      end
  | F_read_file =>
      match arg 0 "filename" args kws, kwarg "driver" kws with
      | Some (VStr path), None => read_file path None s
      | Some (VStr path), Some (VStr d) => read_file path (Some d) s
      | _, _ => type_error "read_file() expects a path" s
      end
  | F_from_xy =>
      from_xy (arg 0 "df" args kws) (arg 1 "x_column" args kws)
              (arg 2 "y_column" args kws) (arg 3 "sr" args kws) s
  | F_from_featureclass => from_featureclass (arg 0 "location" args kws) s
  | F_from_layer => from_layer (arg 0 "layer" args kws) s
  end.

Definition call_class (c : string) (args : list val) (kws : list (string * val))
    (s : lstate) : outcome lstate val :=
  if bool_decide (c = class_type) then
    match args with
    | [v] => Ok (VObj (OClass (type_name v))) s
    | _ => type_error "type() takes 1 or 3 arguments" s
    end
  else if bool_decide (c = class_GeoDataFrame) then
    new_geodataframe (arg 0 "data" args kws) (kwarg "geometry" kws)
                     (kwarg "crs" kws) s
  else if bool_decide (c = class_FeatureLayer) then
    match arg 0 "url" args kws with
    | Some (VStr url) => Ok (VObj (OLayer url)) s
    | _ => type_error "FeatureLayer() expects a url" s
    end
  else type_error ("cannot create '" ++ c ++ "' instances") s.

Definition call (fv : val) (args : list val) (kws : list (string * val))
    (s : lstate) : outcome lstate val :=
  match fv with
  | VObj (OClass c) => call_class c args kws s
  | VObj (OFunc f) => call_func f args kws s
  | VObj (OMethod (OFrame f) name) => frame_method f name args kws s
  | VObj (OMethod (OCrs sr) name) =>
      if bool_decide (name = "to_epsg") then Ok (VInt (wkid sr)) s
      else if bool_decide (name = "to_string")
      then Ok (VStr ("EPSG:" ++ pretty (wkid sr))) s
      else type_error ("'" ++ name ++ "' is not callable") s
  | VObj (OMethod (OAccessor f) name) =>
      if bool_decide (name = "plot")
      then Ok (VObj (OOpaque "arcgis.widgets.MapView")) s
      else type_error ("'" ++ name ++ "' is not callable") s
  | _ => type_error ("'" ++ type_name fv ++ "' object is not callable") s
  end.

#[global] Instance reflib : Library := {|
  Kernel.obj := obj;
  Kernel.lstate := lstate;
  lib_builtin := builtin;
  lib_import := import;
  lib_import_from := import_from;
  lib_getattr := getattr;
  lib_setattr := setattr;
  lib_getitem := getitem;
  lib_setitem := setitem;
  lib_call := call
|}.

(** A kernel that has run nothing yet, in a given world and with a given
    initial driver registry. *)
Definition boot (w : world) (drivers : gmap string string) : kstate :=
  fresh (LState w drivers [] []).

End RefLib.

(** ** A sample world

    Small stand-ins for the data files of the lessons, used to run the
    notebooks on concrete inputs.  The reference systems of the shapefile and
    of the state layer are the ones the ArcGIS notebook records. *)

Module Sample.
Import Kernel RefLib.

Definition dec (m e : Z) : datum := DNum (Decimal m e).

Definition stations : columns :=
  [ ("ID", [dec 39016 0; dec 39017 0; dec 40066 0]);
    ("City", [DText "Raleigh"; DText "Raleigh"; DText "Concord"]);
    ("Latitude", [dec 35778416 (-6); dec 35774350 (-6); dec 35392063 (-6)]);
    ("Longitude", [dec (-78643470) (-6); dec (-78642287) (-6); dec (-80622777) (-6)]) ].

Definition station_points : list geometry :=
  [ GPoint (Decimal (-78643470) (-6)) (Decimal 35778416 (-6));
    GPoint (Decimal (-78642287) (-6)) (Decimal 35774350 (-6));
    GPoint (Decimal (-80622777) (-6)) (Decimal 35392063 (-6)) ].

Definition ring : list (decimal * decimal) :=
  [ (Decimal (-92138662715) (-4), Decimal 41730237505 (-4));
    (Decimal (-90941411919) (-4), Decimal 43207984061 (-4));
    (Decimal (-85313292013) (-4), Decimal 43761842362 (-4));
    (Decimal (-92138662715) (-4), Decimal 41730237505 (-4)) ].

Definition basins (sr : option sref) : vector_data :=
  VectorData [ ("Basin", [DText "BRD"; DText "CAT"]);
               ("Name", [DText "Broad"; DText "Catawba"]) ]
             [ GPolygon [ring]; GPolygon [ring] ]
             sr.

Definition web_mercator : sref := SRef 102100 (Some 3857%Z).
Definition wgs84 : sref := SRef 4326 None.
Definition nc_state_plane : sref := SRef 32119 (Some 32119%Z).

Definition state_url : string :=
  "https://services.nconemap.gov/secure/rest/services/NC1Map_Regional_Boundaries/FeatureServer/0".
Definition county_url : string :=
  "https://services.nconemap.gov/secure/rest/services/NC1Map_Regional_Boundaries/FeatureServer/1".

Definition disk : gmap string file :=
  list_to_map
    [ ("../data/NC_Charging_Stations.csv", FCsv stations);
      ("../data/Major_Basins.shp", FVector "ESRI Shapefile" (basins (Some web_mercator)));
      ("../data/Major_River_Basins.zip", FVector "ESRI Shapefile" (basins (Some web_mercator)));
      ("../data/Major_River_Basins.geojson", FVector "GeoJSON" (basins (Some wgs84)));
      ("../data/Major_River_Basins.kml", FVector "KML" (basins (Some wgs84))) ].

Definition services : gmap string vector_data :=
  list_to_map [ (state_url, basins (Some nc_state_plane));
                (county_url, basins (Some nc_state_plane)) ].

Definition sample_world : world := World disk services (fun _ _ g => g).

(** An excerpt of the registry Fiona starts with; as the lesson notes, KML
    is not in it. *)
Definition default_drivers : gmap string string :=
  list_to_map [ ("CSV", "raw"); ("ESRI Shapefile", "raw"); ("GeoJSON", "raw");
                ("GPKG", "raw"); ("OpenFileGDB", "r") ].

Definition empty_world : world := World ∅ ∅ (fun _ _ g => g).

End Sample.

(** * Properties of the kernel, for any library *)

Module KernelFacts.
Import Syntax Parser Notebooks Kernel.
Local Open Scope list_scope.

(** Induction over expressions that reaches the arguments of calls and the
    elements of tuples. *)
Section ExprInduction.
Variable P : expr -> Prop.
Hypothesis HName : forall x, P (EName x).
Hypothesis HConst : forall c, P (EConst c).
Hypothesis HAttr : forall e a, P e -> P (EAttr e a).
Hypothesis HCall : forall f args kws,
  P f -> Forall P args -> Forall (fun kv => P (snd kv)) kws -> P (ECall f args kws).
Hypothesis HSubscript : forall e i, P e -> P i -> P (ESubscript e i).
Hypothesis HTuple : forall es, Forall P es -> P (ETuple es).

Fixpoint expr_nested_ind (e : expr) : P e :=
  match e with
  | EName x => HName x
  | EConst c => HConst c
  | EAttr e1 a => HAttr e1 a (expr_nested_ind e1)
  | ECall f args kws =>
      HCall f args kws (expr_nested_ind f)
        ((fix go (l : list expr) : Forall P l :=
            match l with
            | [] => @List.Forall_nil _ P
            | x :: l' => @List.Forall_cons _ P x l' (expr_nested_ind x) (go l')
            end) args)
        ((fix go (l : list (string * expr)) : Forall (fun kv => P (snd kv)) l :=
            match l with
            | [] => @List.Forall_nil _ _
            | kv :: l' =>
                @List.Forall_cons _ (fun kv => P (snd kv)) kv l'
                                  (expr_nested_ind (snd kv)) (go l')
            end) kws)
  | ESubscript e1 i => HSubscript e1 i (expr_nested_ind e1) (expr_nested_ind i)
  | ETuple es =>
      HTuple es
        ((fix go (l : list expr) : Forall P l :=
            match l with
            | [] => @List.Forall_nil _ P
            | x :: l' => @List.Forall_cons _ P x l' (expr_nested_ind x) (go l')
            end) es)
  end.
End ExprInduction.

(** ** Composition of runs *)

Section Runs.
Context {L : Library}.

Lemma run_cells_app (cs1 cs2 : list cell) (k : kstate) :
  run_cells (cs1 ++ cs2) k =
  (fst (run_cells cs1 k) ++ fst (run_cells cs2 (snd (run_cells cs1 k))),
   snd (run_cells cs2 (snd (run_cells cs1 k)))).
Proof.
  revert k. induction cs1 as [|c cs1 IH]; intros k; simpl.
  - by destruct (run_cells cs2 k).
  - rewrite IH. destruct (run_cells cs1 (state_of (run_cell c k))). reflexivity.
Qed.

Lemma run_cells_snd_cons (c : cell) (cs : list cell) (k : kstate) :
  snd (run_cells (c :: cs) k) = snd (run_cells cs (state_of (run_cell c k))).
Proof. simpl. by destruct (run_cells cs (state_of (run_cell c k))). Qed.

(** The same run with the outcomes accumulated, for stepping through a
    notebook one cell at a time. *)
Fixpoint run_from (acc : list (outcome kstate (option (value obj))))
    (cs : list cell) (k : kstate)
    : list (outcome kstate (option (value obj))) * kstate :=
  match cs with
  | [] => (rev acc, k)
  | c :: cs' => run_from (run_cell c k :: acc) cs' (state_of (run_cell c k))
  end.

Lemma run_from_spec acc (cs : list cell) (k : kstate) :
  run_from acc cs k = (rev acc ++ fst (run_cells cs k), snd (run_cells cs k)).
Proof.
  revert acc k. induction cs as [|c cs IH]; intros acc k; simpl.
  - by rewrite app_nil_r.
  - rewrite IH. simpl. rewrite <- app_assoc. simpl.
    by destruct (run_cells cs (state_of (run_cell c k))).
Qed.

Lemma run_cells_from (cs : list cell) (k : kstate) :
  run_cells cs k = run_from [] cs k.
Proof. rewrite run_from_spec. simpl. by destruct (run_cells cs k). Qed.

Lemma run_from_cons acc (c : cell) (cs : list cell) (k : kstate) :
  run_from acc (c :: cs) k =
  run_from (run_cell c k :: acc) cs (state_of (run_cell c k)).
Proof. reflexivity. Qed.

(** ** What a cell can bind *)

Definition binder (st : stmt) : option string :=
  match st with
  | SImport m a => Some (import_binder m a)
  | SFromImport _ x a => Some (default x a)
  | SAssign (EName x) _ => Some x
  | _ => None
  end.

Definition cell_binders (c : cell) : list string :=
  match parse_cell (cell_text c) with
  | inl _ => []
  | inr sts => omap binder sts
  end.

Lemma exec_stmt_env (st : stmt) (k : kstate) (x : string) :
  binder st ≠ Some x ->
  ns_lookup x (env (state_of (exec_stmt st k))) = ns_lookup x (env k).
Proof.
  intros Hb. destruct st as [m a|m y a|t rhs|e|e]; simpl in *.
  - destruct (lib_import m (lib k)); simpl; [|done].
    destruct (lib_import _ _); simpl; [|done].
    apply ns_lookup_bind_ne. congruence.
  - destruct (lib_import_from m y (lib k)); simpl; [|done].
    apply ns_lookup_bind_ne. congruence.
  - destruct (eval (env k) rhs (lib k)); simpl; [|done].
    destruct t; simpl; try done.
    + apply ns_lookup_bind_ne. congruence.
    + destruct (eval _ t _); simpl; [|done]. by destruct (lib_setattr _ _ _ _).
    + destruct (eval _ t1 _); simpl; [|done].
      destruct (eval _ t2 _); simpl; [|done]. by destruct (lib_setitem _ _ _ _).
  - by destruct (eval (env k) e (lib k)).
  - done.
Qed.

Lemma exec_stmts_env (sts : list stmt) (d : option (value obj)) (k : kstate)
    (x : string) :
  x ∉ omap binder sts ->
  ns_lookup x (env (state_of (exec_stmts sts d k))) = ns_lookup x (env k).
Proof.
  revert d k. induction sts as [|st sts IH]; intros d k Hx; simpl; [done|].
  assert (binder st ≠ Some x ∧ x ∉ omap binder sts) as [H1 H2].
  { simpl in Hx. destruct (binder st) as [y|] eqn:E.
    - apply not_elem_of_cons in Hx as [? ?]. split; [congruence|done].
    - done. }
  pose proof (exec_stmt_env st k x H1) as Hst.
  destruct (exec_stmt st k) as [d1 k1|e1 k1]; simpl in *.
  - rewrite IH; done.
  - done.
Qed.

(** A cell leaves alone every name it does not bind. *)
Lemma run_cell_env (c : cell) (k : kstate) (x : string) :
  x ∉ cell_binders c ->
  ns_lookup x (env (state_of (run_cell c k))) = ns_lookup x (env k).
Proof.
  unfold run_cell, cell_binders.
  destruct (parse_cell (cell_text c)) as [err|sts]; [done|].
  apply exec_stmts_env.
Qed.

Lemma run_cells_env (cs : list cell) (k : kstate) (x : string) :
  x ∉ concat (map cell_binders cs) ->
  ns_lookup x (env (snd (run_cells cs k))) = ns_lookup x (env k).
Proof.
  revert k. induction cs as [|c cs IH]; intros k Hx; [done|].
  rewrite run_cells_snd_cons. simpl in Hx.
  apply not_elem_of_app in Hx as [H1 H2].
  rewrite IH by done. by apply run_cell_env.
Qed.

End Runs.

(** ** Library state the cells cannot reach by themselves

    A relation on library states that every library operation other than an
    assignment through a subscript or an attribute respects is respected by
    every cell that makes no such assignment. *)

Definition plain (st : stmt) : bool :=
  match st with
  | SAssign (ESubscript _ _) _ | SAssign (EAttr _ _) _ => false
  | _ => true
  end.

Definition cell_plain (c : cell) : bool :=
  match parse_cell (cell_text c) with
  | inl _ => true
  | inr sts => forallb plain sts
  end.

Section StateFrame.
Context {L : Library}.
Variable R : lstate -> lstate -> Prop.
Hypothesis R_refl : forall s, R s s.
Hypothesis R_trans : forall a b c, R a b -> R b c -> R a c.
Hypothesis R_getattr : forall v a s, R s (state_of (lib_getattr v a s)).
Hypothesis R_getitem : forall v i s, R s (state_of (lib_getitem v i s)).
Hypothesis R_call : forall f args kws s, R s (state_of (lib_call f args kws s)).
Hypothesis R_import : forall m s, R s (state_of (lib_import m s)).
Hypothesis R_import_from : forall m x s, R s (state_of (lib_import_from m x s)).

Lemma eval_seq_frame {A} (ev : A -> lstate -> outcome lstate (value obj))
    (xs : list A) (s : lstate) :
  Forall (fun x => forall s, R s (state_of (ev x s))) xs ->
  R s (state_of (eval_seq ev xs s)).
Proof.
  intros H. revert s. induction H as [|x xs Hx _ IH]; intros s; simpl; [done|].
  specialize (Hx s). destruct (ev x s) as [v s1|e s1]; simpl in *; [|done].
  specialize (IH s1). destruct (eval_seq ev xs s1); simpl in *; eauto.
Qed.

Lemma eval_kw_frame (ev : expr -> lstate -> outcome lstate (value obj))
    (xs : list (string * expr)) (s : lstate) :
  Forall (fun kv => forall s, R s (state_of (ev (snd kv) s))) xs ->
  R s (state_of (eval_kw ev xs s)).
Proof.
  intros H. revert s. induction H as [|[n x] xs Hx _ IH]; intros s; simpl; [done|].
  specialize (Hx s). simpl in Hx.
  destruct (ev x s) as [v s1|e s1]; simpl in *; [|done].
  specialize (IH s1). destruct (eval_kw ev xs s1); simpl in *; eauto.
Qed.

Lemma eval_frame (ns : list (string * value obj)) (e : expr) (s : lstate) :
  R s (state_of (eval ns e s)).
Proof.
  revert s. induction e as [x|c|e a IH|f args kws IHf IHa IHk|e i IHe IHi|es IH]
    using expr_nested_ind; intros s; simpl.
  - unfold lookup_name. destruct (ns_lookup x ns); [done|]. by destruct (lib_builtin x).
  - done.
  - specialize (IH s). destruct (eval ns e s) as [v s1|x s1]; simpl in *; [|done].
    eauto.
  - specialize (IHf s). destruct (eval ns f s) as [fv s1|x s1]; simpl in *; [|done].
    pose proof (eval_seq_frame (eval ns) args s1 IHa) as H1.
    destruct (eval_seq (eval ns) args s1) as [avs s2|x s2]; simpl in *; [|eauto].
    pose proof (eval_kw_frame (eval ns) kws s2 IHk) as H2.
    destruct (eval_kw (eval ns) kws s2) as [kvs s3|x s3]; simpl in *; eauto.
  - specialize (IHe s). destruct (eval ns e s) as [v s1|x s1]; simpl in *; [|done].
    specialize (IHi s1). destruct (eval ns i s1) as [iv s2|x s2]; simpl in *; eauto.
  - pose proof (eval_seq_frame (eval ns) es s IH) as H1.
    destruct (eval_seq (eval ns) es s); simpl in *; done.
Qed.

Lemma exec_stmt_frame (st : stmt) (k : kstate) :
  plain st = true -> R (lib k) (lib (state_of (exec_stmt st k))).
Proof.
  intros Hp. destruct st as [m a|m y a|t rhs|e|e]; simpl.
  - pose proof (R_import m (lib k)) as H1.
    destruct (lib_import m (lib k)) as [v s1|x s1]; simpl in *; [|done].
    pose proof (R_import (import_target m a) s1) as H2.
    destruct (lib_import _ s1); simpl in *; eauto.
  - pose proof (R_import_from m y (lib k)) as H1.
    destruct (lib_import_from m y (lib k)); simpl in *; done.
  - pose proof (eval_frame (env k) rhs (lib k)) as H1.
    destruct (eval (env k) rhs (lib k)); simpl in *; [|done].
    destruct t; simpl in *; done.
  - pose proof (eval_frame (env k) e (lib k)) as H1.
    destruct (eval (env k) e (lib k)); simpl in *; done.
  - done.
Qed.

Lemma exec_stmts_frame (sts : list stmt) (d : option (value obj)) (k : kstate) :
  forallb plain sts = true -> R (lib k) (lib (state_of (exec_stmts sts d k))).
Proof.
  revert d k. induction sts as [|st sts IH]; intros d k Hp; simpl; [done|].
  simpl in Hp. apply andb_prop in Hp as [H1 H2].
  pose proof (exec_stmt_frame st k H1) as Hst.
  destruct (exec_stmt st k) as [d1 k1|e1 k1]; simpl in *; [|done].
  eapply R_trans; [exact Hst|]. by apply IH.
Qed.

Lemma run_cell_frame (c : cell) (k : kstate) :
  cell_plain c = true -> R (lib k) (lib (state_of (run_cell c k))).
Proof.
  unfold cell_plain, run_cell.
  destruct (parse_cell (cell_text c)); [done|]. apply exec_stmts_frame.
Qed.

Lemma run_cells_frame (cs : list cell) (k : kstate) :
  forallb cell_plain cs = true -> R (lib k) (lib (snd (run_cells cs k))).
Proof.
  revert k. induction cs as [|c cs IH]; intros k Hp; [done|].
  simpl in Hp. apply andb_prop in Hp as [H1 H2].
  rewrite run_cells_snd_cons.
  eapply R_trans; [by apply run_cell_frame|]. by apply IH.
Qed.

End StateFrame.

(** ** No cell handles an exception

    Any library can be wrapped so that it records each exception it raises.
    Against the recording library, a cell that ends normally has seen no
    library exception, and a cell that ends with an exception ends with the
    one exception the library raised, unless the exception is the kernel's own
    ([NameError] for an unbound name, [SyntaxError] for text that does not
    parse). *)

Section Unguarded.
Variable L : Library.

Definition note {A} (r : outcome (@lstate L) A) (seen : list exn)
    : outcome (@lstate L * list exn) A :=
  match r with
  | Ok a s => Ok a (s, seen)
  | Raise e s => Raise e (s, e :: seen)
  end.

Definition recording : Library := {|
  obj := @obj L;
  lstate := (@lstate L * list exn)%type;
  lib_builtin := @lib_builtin L;
  lib_import := fun m sl => note (lib_import m (fst sl)) (snd sl);
  lib_import_from := fun m x sl => note (lib_import_from m x (fst sl)) (snd sl);
  lib_getattr := fun v a sl => note (lib_getattr v a (fst sl)) (snd sl);
  lib_setattr := fun v a x sl => note (lib_setattr v a x (fst sl)) (snd sl);
  lib_getitem := fun v i sl => note (lib_getitem v i (fst sl)) (snd sl);
  lib_setitem := fun v i x sl => note (lib_setitem v i x (fst sl)) (snd sl);
  lib_call := fun f args kws sl => note (lib_call f args kws (fst sl)) (snd sl)
|}.

Definition kernel_exn (e : exn) : Prop :=
  exn_type e = "NameError" \/ exn_type e = "SyntaxError".

(** [r] ends a computation started with [seen] recorded. *)
Definition faithful {A} (seen : list exn)
    (r : outcome (@lstate L * list exn) A) : Prop :=
  match r with
  | Ok _ sl => snd sl = seen
  | Raise e sl => snd sl = e :: seen \/ (snd sl = seen /\ kernel_exn e)
  end.

Lemma note_faithful {A} (r : outcome (@lstate L) A) (seen : list exn) :
  faithful seen (note r seen).
Proof. destruct r; simpl; auto. Qed.

Lemma eval_seq_faithful {A}
    (ev : A -> @lstate recording -> outcome (@lstate recording) (value (@obj L)))
    (xs : list A) (s : @lstate recording) :
  Forall (fun x => forall s, faithful (snd s) (ev x s)) xs ->
  faithful (snd s) (@eval_seq recording A ev xs s).
Proof.
  intros H. revert s. induction H as [|x xs Hx _ IH]; intros s; simpl; [done|].
  specialize (Hx s). destruct (ev x s) as [v s1|e s1]; simpl in *; [|done].
  specialize (IH s1). rewrite Hx in IH.
  destruct (@eval_seq recording _ ev xs s1); simpl in *; done.
Qed.

Lemma eval_kw_faithful
    (ev : expr -> @lstate recording -> outcome (@lstate recording) (value (@obj L)))
    (xs : list (string * expr)) (s : @lstate recording) :
  Forall (fun kv => forall s, faithful (snd s) (ev (snd kv) s)) xs ->
  faithful (snd s) (@eval_kw recording ev xs s).
Proof.
  intros H. revert s. induction H as [|[n x] xs Hx _ IH]; intros s; simpl; [done|].
  specialize (Hx s). simpl in Hx.
  destruct (ev x s) as [v s1|e s1]; simpl in *; [|done].
  specialize (IH s1). rewrite Hx in IH.
  destruct (@eval_kw recording ev xs s1); simpl in *; done.
Qed.

Lemma eval_faithful (ns : list (string * value (@obj L))) (e : expr)
    (s : @lstate recording) :
  faithful (snd s) (@eval recording ns e s).
Proof.
  revert s. induction e as [x|c|e a IH|f args kws IHf IHa IHk|e i IHe IHi|es IH]
    using expr_nested_ind; intros s; simpl.
  - unfold lookup_name. repeat case_match; simpl; try done.
    right. split; [done|by left].
  - done.
  - specialize (IH s).
    destruct (@eval recording ns e s) as [v s1|x s1]; simpl in *; [|done].
    rewrite <- IH. apply note_faithful.
  - specialize (IHf s).
    destruct (@eval recording ns f s) as [fv s1|x s1]; simpl in *; [|done].
    pose proof (eval_seq_faithful (@eval recording ns) args s1 IHa) as H1.
    rewrite IHf in H1.
    destruct (@eval_seq recording _ _ args s1) as [avs s2|x s2]; simpl in *; [|done].
    pose proof (eval_kw_faithful (@eval recording ns) kws s2 IHk) as H2.
    rewrite H1 in H2.
    destruct (@eval_kw recording _ kws s2) as [kvs s3|x s3]; simpl in *; [|done].
    rewrite <- H2. apply note_faithful.
  - specialize (IHe s).
    destruct (@eval recording ns e s) as [v s1|x s1]; simpl in *; [|done].
    specialize (IHi s1). rewrite IHe in IHi.
    destruct (@eval recording ns i s1) as [iv s2|x s2]; simpl in *; [|done].
    rewrite <- IHi. apply note_faithful.
  - pose proof (eval_seq_faithful (@eval recording ns) es s IH) as H1.
    destruct (@eval_seq recording _ _ es s); simpl in *; done.
Qed.

Definition seen (k : @kstate recording) : list exn := snd (lib k).

Definition faithful_run {A} (before : list exn)
    (r : outcome (@kstate recording) A) : Prop :=
  match r with
  | Ok _ k => seen k = before
  | Raise e k => seen k = e :: before \/ (seen k = before /\ kernel_exn e)
  end.

Ltac step_note :=
  match goal with
  | |- context [note ?r ?l] =>
      let H := fresh "Hn" in
      pose proof (note_faithful r l) as H;
      destruct (note r l); simpl in *
  end.

Ltac step_eval :=
  match goal with
  | |- context [@eval recording ?ns ?e ?s] =>
      let H := fresh "He" in
      pose proof (eval_faithful ns e s) as H;
      destruct (@eval recording ns e s); simpl in *
  end.

Ltac retrace :=
  repeat match goal with
         | H : snd _ = snd _ |- _ => rewrite H in *; clear H
         end.

Lemma exec_stmt_faithful (st : stmt) (k : @kstate recording) :
  faithful_run (seen k) (@exec_stmt recording st k).
Proof.
  unfold faithful_run, seen.
  destruct st as [m a|m y a|t rhs|e|e]; simpl.
  - step_note; [|done]. step_note; retrace; done.
  - step_note; done.
  - step_eval; [|done].
    destruct t; simpl; try (right; split; [done|by right]); try done.
    + step_eval; [|retrace; done]. step_note; retrace; done.
    + step_eval; [|retrace; done]. step_eval; [|retrace; done].
      step_note; retrace; done.
  - step_eval; done.
  - done.
Qed.

Lemma exec_stmts_faithful (sts : list stmt) (d : option (value (@obj L)))
    (k : @kstate recording) :
  faithful_run (seen k) (@exec_stmts recording sts d k).
Proof.
  revert d k. induction sts as [|st sts IH]; intros d k; simpl; [done|].
  pose proof (exec_stmt_faithful st k) as Hst.
  destruct (@exec_stmt recording st k) as [d1 k1|e1 k1]; simpl in *; [|done].
  rewrite <- Hst. apply IH.
Qed.

Lemma run_cell_faithful (c : cell) (k : @kstate recording) :
  faithful_run (seen k) (@run_cell recording c k).
Proof.
  unfold run_cell. destruct (parse_cell (cell_text c)).
  - simpl. right. split; [done|by right].
  - apply exec_stmts_faithful.
Qed.

End Unguarded.

(** ** Cells that bind nothing *)

Section Observers.
Context {L : Library}.





End Observers.

(** ** Names read and names bound *)

Definition succeeded {S A} (r : outcome S A) : bool :=
  match r with Ok _ _ => true | Raise _ _ => false end.

(** The names an expression reads. *)
Fixpoint names_of (e : expr) : list string :=
  match e with
  | EName x => [x]
  | EConst _ => []
  | EAttr e1 _ => names_of e1
  | ECall f args kws =>
      names_of f ++ concat (List.map names_of args)
        ++ concat (List.map (fun kv => names_of (snd kv)) kws)
  | ESubscript e1 i => names_of e1 ++ names_of i
  | ETuple es => concat (List.map names_of es)
  end.

(** The names a statement reads when it runs; a help query reads none. *)
Definition stmt_reads (st : stmt) : list string :=
  match st with
  | SImport _ _ | SFromImport _ _ _ | SHelp _ => []
  | SAssign (EName _) rhs => names_of rhs
  | SAssign t rhs => names_of rhs ++ names_of t
  | SExpr e => names_of e
  end.

(** The names a run of statements reads before it has bound them itself. *)
Fixpoint needs_from (bound : list string) (sts : list stmt) : list string :=
  match sts with
  | [] => []
  | st :: sts' =>
      List.filter (fun x => negb (bool_decide (x ∈ bound))) (stmt_reads st)
        ++ needs_from (match binder st with
                       | Some x => x :: bound
                       | None => bound
                       end) sts'
  end.

Definition cell_needs (c : cell) : list string :=
  match parse_cell (cell_text c) with
  | inl _ => []
  | inr sts => needs_from [] sts
  end.

(** Every cell needs only names of [bound] or names bound by a cell before
    it. *)
Fixpoint ordered_from (bound : list string) (cs : list cell) : bool :=
  match cs with
  | [] => true
  | c :: cs' =>
      forallb (fun x => bool_decide (x ∈ bound)) (cell_needs c)
      && ordered_from (cell_binders c ++ bound) cs'
  end.

Lemma ordered_from_lookup (bound : list string) (cs : list cell) (n : nat)
    (c : cell) (x : string) :
  ordered_from bound cs = true ->
  cs !! n = Some c ->
  x ∈ cell_needs c ->
  x ∈ bound \/
  exists j c', j < n /\ cs !! j = Some c' /\ x ∈ cell_binders c'.
Proof.
  revert bound n. induction cs as [|c0 cs IH]; intros bound n Ho Hn Hx; [done|].
  simpl in Ho. apply andb_prop in Ho as [Ho1 Ho2].
  destruct n as [|n]; simpl in Hn.
  - injection Hn as ->. left.
    rewrite forallb_forall in Ho1.
    apply list_elem_of_In, Ho1, bool_decide_eq_true_1 in Hx. done.
  - destruct (IH _ _ Ho2 Hn Hx) as [Hb|(j & c' & Hj & Hc' & Hb)].
    + apply elem_of_app in Hb as [Hb|Hb]; [|by left].
      right. exists 0, c0. split; [lia|]. done.
    + right. exists (S j), c'. split; [lia|]. done.
Qed.

Section Bound.
Context {L : Library}.

Definition bound (x : string) (k : kstate) : Prop := is_Some (ns_lookup x (env k)).

Lemma bound_bind (x y : string) (v : value obj) (ns : list (string * value obj)) :
  is_Some (ns_lookup x ns) -> is_Some (ns_lookup x (ns_bind y v ns)).
Proof.
  intros H. destruct (decide (y = x)) as [->|Hne].
  - rewrite ns_lookup_bind_eq. by eexists.
  - by rewrite ns_lookup_bind_ne.
Qed.

Lemma exec_stmt_keeps_bound (st : stmt) (k : kstate) (x : string) :
  bound x k -> bound x (state_of (exec_stmt st k)).
Proof.
  unfold bound. intros Hb. destruct st as [m a|m y a|t rhs|e|e]; simpl in *.
  - destruct (lib_import m (lib k)); simpl; [|done].
    destruct (lib_import _ _); simpl; [|done]. by apply bound_bind.
  - destruct (lib_import_from m y (lib k)); simpl; [|done]. by apply bound_bind.
  - destruct (eval (env k) rhs (lib k)); simpl; [|done].
    destruct t; simpl; try done.
    + by apply bound_bind.
    + destruct (eval _ t _); simpl; [|done]. by destruct (lib_setattr _ _ _ _).
    + destruct (eval _ t1 _); simpl; [|done].
      destruct (eval _ t2 _); simpl; [|done]. by destruct (lib_setitem _ _ _ _).
  - by destruct (eval (env k) e (lib k)).
  - done.
Qed.

Lemma exec_stmt_binds (st : stmt) (k : kstate) (x : string) :
  succeeded (exec_stmt st k) = true -> binder st = Some x ->
  bound x (state_of (exec_stmt st k)).
Proof.
  unfold bound. intros Hs Hb.
  destruct st as [m a|m y a|t rhs|e|e]; simpl in *; try done.
  - injection Hb as <-.
    destruct (lib_import m (lib k)); simpl in *; [|done].
    destruct (lib_import _ _); simpl in *; [|done].
    rewrite ns_lookup_bind_eq. by eexists.
  - injection Hb as <-.
    destruct (lib_import_from m y (lib k)); simpl in *; [|done].
    rewrite ns_lookup_bind_eq. by eexists.
  - destruct t; try done. injection Hb as <-.
    destruct (eval (env k) rhs (lib k)); simpl in *; [|done].
    rewrite ns_lookup_bind_eq. by eexists.
Qed.

Lemma exec_stmts_keeps_bound (sts : list stmt) (d : option (value obj))
    (k : kstate) (x : string) :
  bound x k -> bound x (state_of (exec_stmts sts d k)).
Proof.
  revert d k. induction sts as [|st sts IH]; intros d k Hb; simpl; [done|].
  pose proof (exec_stmt_keeps_bound st k x Hb) as H1.
  destruct (exec_stmt st k) as [d1 k1|e1 k1]; simpl in *; [|done].
  by apply IH.
Qed.

Lemma exec_stmts_binds (sts : list stmt) (d : option (value obj)) (k : kstate)
    (x : string) :
  succeeded (exec_stmts sts d k) = true -> x ∈ omap binder sts ->
  bound x (state_of (exec_stmts sts d k)).
Proof.
  revert d k. induction sts as [|st sts IH]; intros d k Hs Hx; simpl in *.
  - by apply elem_of_nil in Hx.
  - pose proof (exec_stmt_binds st k x) as H1.
    destruct (exec_stmt st k) as [d1 k1|e1 k1]; simpl in *; [|done].
    destruct (binder st) as [y|] eqn:E.
    + apply elem_of_cons in Hx as [->|Hx].
      * apply exec_stmts_keeps_bound. by apply H1.
      * by apply IH.
    + by apply IH.
Qed.

Lemma run_cell_keeps_bound (c : cell) (k : kstate) (x : string) :
  bound x k -> bound x (state_of (run_cell c k)).
Proof.
  unfold run_cell. destruct (parse_cell (cell_text c)); [done|].
  apply exec_stmts_keeps_bound.
Qed.

Lemma run_cell_binds (c : cell) (k : kstate) (x : string) :
  succeeded (run_cell c k) = true -> x ∈ cell_binders c ->
  bound x (state_of (run_cell c k)).
Proof.
  unfold run_cell, cell_binders. destruct (parse_cell (cell_text c)); [done|].
  apply exec_stmts_binds.
Qed.

Lemma run_cells_keeps_bound (cs : list cell) (k : kstate) (x : string) :
  bound x k -> bound x (snd (run_cells cs k)).
Proof.
  revert k. induction cs as [|c cs IH]; intros k Hb; [done|].
  rewrite run_cells_snd_cons. by apply IH, run_cell_keeps_bound.
Qed.

(** The outcome of the cell at index [j] is that of running it in the state
    the cells before it leave. *)
Lemma run_cells_lookup (cs : list cell) (k : kstate) (j : nat) (c : cell) :
  cs !! j = Some c ->
  fst (run_cells cs k) !! j = Some (run_cell c (snd (run_cells (take j cs) k))).
Proof.
  revert k j. induction cs as [|c0 cs IH]; intros k j Hj; [done|].
  destruct j as [|j]; simpl in *.
  - injection Hj as ->. by destruct (run_cells cs (state_of (run_cell c k))).
  - specialize (IH (state_of (run_cell c0 k)) j Hj).
    destruct (run_cells cs (state_of (run_cell c0 k))) eqn:E1.
    destruct (run_cells (take j cs) (state_of (run_cell c0 k))) eqn:E2.
    simpl in *. done.
Qed.

Lemma run_cells_take_S (cs : list cell) (k : kstate) (j : nat) (c : cell) :
  cs !! j = Some c ->
  snd (run_cells (take (S j) cs) k)
  = state_of (run_cell c (snd (run_cells (take j cs) k))).
Proof.
  intros Hj. rewrite (take_S_r _ _ _ Hj), run_cells_app. reflexivity.
Qed.

(** A name bound by a cell that succeeded is bound from then on. *)
Lemma bound_since (cs : list cell) (k : kstate) (j n : nat) (c : cell)
    (x : string) (r : outcome kstate (option (value obj))) :
  cs !! j = Some c -> j < n -> x ∈ cell_binders c ->
  fst (run_cells cs k) !! j = Some r -> succeeded r = true ->
  bound x (snd (run_cells (take n cs) k)).
Proof.
  intros Hj Hlt Hx Hr Hs.
  rewrite (run_cells_lookup cs k j c Hj) in Hr. injection Hr as <-.
  replace (take n cs) with (take (S j) cs ++ drop (S j) (take n cs))
    by (rewrite <- (take_drop (S j) (take n cs)) at 2;
        by rewrite take_take, Nat.min_l by lia).
  rewrite run_cells_app. cbn [snd].
  apply run_cells_keeps_bound.
  rewrite (run_cells_take_S cs k j c Hj). by apply run_cell_binds.
Qed.

End Bound.

End KernelFacts.

(** * Properties of the reference library *)

Module RefLibFacts.
Import Syntax Parser Notebooks Kernel KernelFacts RefLib.
Local Open Scope list_scope.

Ltac unfold_lib :=
  unfold call, call_class, call_func, frame_method, plot_frame, to_crs, to_csv,
    from_layer, from_featureclass, from_xy, new_geodataframe, read_file,
    read_csv, getitem, getattr, accessor_attr, frame_attr, import_from, import,
    mark_loaded, key_error, attribute_error, driver_error, type_error, raise, log
    in *.

Ltac crush_lib :=
  intros; unfold_lib; repeat case_match; simplify_eq; simpl; try done.

(** The driver registry changes through item assignment only. *)
Definition same_drivers (s s' : lstate) : Prop := ls_drivers s' = ls_drivers s.

Lemma getattr_drivers v a s : same_drivers s (state_of (getattr v a s)).
Proof. unfold same_drivers. crush_lib. Qed.

Lemma getitem_drivers v i s : same_drivers s (state_of (getitem v i s)).
Proof. unfold same_drivers. crush_lib. Qed.

Lemma call_drivers f args kws s : same_drivers s (state_of (call f args kws s)).
Proof. unfold same_drivers. crush_lib. Qed.

Lemma import_drivers m s : same_drivers s (state_of (import m s)).
Proof. unfold same_drivers. crush_lib. Qed.

Lemma import_from_drivers m x s : same_drivers s (state_of (import_from m x s)).
Proof. unfold same_drivers. crush_lib. Qed.

Lemma run_cells_drivers (cs : list cell) (k : kstate) :
  forallb cell_plain cs = true ->
  ls_drivers (lib (snd (run_cells cs k))) = ls_drivers (lib k).
Proof.
  apply (run_cells_frame (L:=reflib) same_drivers).
  - done.
  - unfold same_drivers. congruence.
  - apply getattr_drivers.
  - apply getitem_drivers.
  - apply call_drivers.
  - apply import_drivers.
  - apply import_from_drivers.
Qed.

Lemma run_cell_drivers (c : cell) (k : kstate) :
  cell_plain c = true ->
  ls_drivers (lib (state_of (run_cell c k))) = ls_drivers (lib k).
Proof.
  apply (run_cell_frame (L:=reflib) same_drivers).
  - done.
  - unfold same_drivers. congruence.
  - apply getattr_drivers.
  - apply getitem_drivers.
  - apply call_drivers.
  - apply import_drivers.
  - apply import_from_drivers.
Qed.

(** ** Static analysis of cells

    Given a set of attribute names and a class of values to stay away from,
    an expression is quiet when it mentions none of the names.  If the library
    hands out the dangerous values only under those names, and calling anything
    else respects a relation [R] on library states, then quiet cells run in a
    namespace free of dangerous values respect [R] and keep the namespace
    free of them. *)

Section Analysis.
Variable names : list string.
Variable danger : val -> bool.
Variable R : lstate -> lstate -> Prop.

Definition tame (ns : list (string * val)) : Prop :=
  forall x v, ns_lookup x ns = Some v -> danger v = false.

Fixpoint quiet (e : expr) : bool :=
  match e with
  | EName _ | EConst _ => true
  | EAttr e1 a => quiet e1 && negb (bool_decide (a ∈ names))
  | ECall f args kws =>
      quiet f && forallb quiet args && forallb (fun kv => quiet (snd kv)) kws
  | ESubscript e1 i => quiet e1 && quiet i
  | ETuple es => forallb quiet es
  end.

Definition quiet_stmt (st : stmt) : bool :=
  match st with
  | SImport _ _ => true
  | SFromImport _ x _ => negb (bool_decide (x ∈ names))
  | SAssign t rhs => quiet t && quiet rhs
  | SExpr e => quiet e
  | SHelp _ => true
  end.

Definition quiet_cell (c : cell) : bool :=
  match parse_cell (cell_text c) with
  | inl _ => true
  | inr sts => forallb quiet_stmt sts
  end.

Lemma tame_nil : tame [].
Proof. intros x v H. discriminate. Qed.

Lemma tame_bind x v ns : tame ns -> danger v = false -> tame (ns_bind x v ns).
Proof.
  intros Hns Hv y u. destruct (decide (x = y)) as [->|Hne].
  - rewrite ns_lookup_bind_eq. by intros [= <-].
  - rewrite ns_lookup_bind_ne by done. apply Hns.
Qed.

Hypothesis R_refl : forall s, R s s.
Hypothesis R_trans : forall a b c, R a b -> R b c -> R a c.
Hypothesis plain_values : forall v, (forall o, v <> VObj o) -> danger v = false.
Hypothesis builtin_tame : forall x v, builtin x = Some v -> danger v = false.
Hypothesis getattr_tame : forall v a s v' s',
  getattr v a s = Ok v' s' -> a ∉ names -> danger v' = false.
Hypothesis getitem_tame : forall v i s v' s',
  getitem v i s = Ok v' s' -> danger v' = false.
Hypothesis call_tame : forall f args kws s v' s',
  call f args kws s = Ok v' s' -> danger v' = false.
Hypothesis import_tame : forall m s v s', import m s = Ok v s' -> danger v = false.
Hypothesis import_from_tame : forall m x s v s',
  import_from m x s = Ok v s' -> x ∉ names -> danger v = false.
Hypothesis getattr_R : forall v a s, R s (state_of (getattr v a s)).
Hypothesis getitem_R : forall v i s, R s (state_of (getitem v i s)).
Hypothesis call_R : forall f args kws s,
  danger f = false -> R s (state_of (call f args kws s)).
Hypothesis import_R : forall m s, R s (state_of (import m s)).
Hypothesis import_from_R : forall m x s, R s (state_of (import_from m x s)).
Hypothesis setitem_R : forall v i x s, R s (state_of (setitem v i x s)).

Definition eval_is_quiet (ns : list (string * val)) (e : expr) : Prop :=
  forall s,
    R s (state_of (eval ns e s)) /\
    forall v s', eval ns e s = Ok v s' -> danger v = false.

Lemma eval_seq_quiet ns (es : list expr) (s : lstate) :
  Forall (fun e => quiet e = true -> eval_is_quiet ns e) es ->
  forallb quiet es = true ->
  R s (state_of (eval_seq (eval ns) es s)).
Proof.
  intros H. revert s. induction H as [|e es He _ IH]; intros s Hq; simpl; [done|].
  simpl in Hq. apply andb_prop in Hq as [Hq1 Hq2].
  destruct (He Hq1 s) as [Ho _].
  destruct (@eval reflib ns e s) as [v s1|x s1]; simpl in *; [|done].
  specialize (IH s1 Hq2).
  destruct (@eval_seq reflib _ (@eval reflib ns) es s1); simpl in *; eauto.
Qed.

Lemma eval_kw_quiet ns (kws : list (string * expr)) (s : lstate) :
  Forall (fun kv => quiet (snd kv) = true -> eval_is_quiet ns (snd kv)) kws ->
  forallb (fun kv => quiet (snd kv)) kws = true ->
  R s (state_of (eval_kw (eval ns) kws s)).
Proof.
  intros H. revert s. induction H as [|[n e] es He _ IH]; intros s Hq; simpl; [done|].
  simpl in Hq, He. apply andb_prop in Hq as [Hq1 Hq2].
  destruct (He Hq1 s) as [Ho _].
  destruct (@eval reflib ns e s) as [v s1|x s1]; simpl in *; [|done].
  specialize (IH s1 Hq2).
  destruct (@eval_kw reflib (@eval reflib ns) es s1); simpl in *; eauto.
Qed.

Lemma eval_quiet ns (e : expr) :
  tame ns -> quiet e = true -> eval_is_quiet ns e.
Proof.
  intros Hns.
  induction e as [x|c|e a IH|f args kws IHf IHa IHk|e i IHe IHi|es IH]
    using expr_nested_ind; intros Hq s; simpl in *.
  - unfold lookup_name. repeat case_match; simpl; (split; [done|]);
      intros ? ? ?; simplify_eq; [by eapply Hns|by eapply builtin_tame].
  - split; [done|]. intros ? ? [= <- <-]. apply plain_values. by destruct c.
  - apply andb_prop in Hq as [Hq1 Hq2].
    apply negb_true_iff, bool_decide_eq_false in Hq2.
    destruct (IH Hq1 s) as [Ho _].
    destruct (@eval reflib ns e s) as [v s1|x s1]; simpl in *; [|done].
    split; [eauto|]. intros v' s' Hg. by eapply getattr_tame.
  - apply andb_prop in Hq as [Hq Hq3]. apply andb_prop in Hq as [Hq1 Hq2].
    destruct (IHf Hq1 s) as [Ho Hv].
    destruct (@eval reflib ns f s) as [fv s1|x s1]; simpl in *; [|done].
    specialize (Hv fv s1 eq_refl).
    pose proof (eval_seq_quiet ns args s1 IHa Hq2) as H1.
    destruct (@eval_seq reflib _ (@eval reflib ns) args s1) as [avs s2|x s2];
      simpl in *; [|split; [eauto|done]].
    pose proof (eval_kw_quiet ns kws s2 IHk Hq3) as H2.
    destruct (@eval_kw reflib (@eval reflib ns) kws s2) as [kvs s3|x s3];
      simpl in *; [|split; [eauto|done]].
    split; [|intros v' s' Hc; by eapply call_tame].
    pose proof (call_R fv avs kvs s3 Hv). eauto.
  - apply andb_prop in Hq as [Hq1 Hq2].
    destruct (IHe Hq1 s) as [Ho _].
    destruct (@eval reflib ns e s) as [v s1|x s1]; simpl in *; [|done].
    destruct (IHi Hq2 s1) as [Ho2 _].
    destruct (@eval reflib ns i s1) as [iv s2|x s2]; simpl in *;
      [|split; [eauto|done]].
    split; [|intros v' s' Hg; by eapply getitem_tame].
    pose proof (getitem_R v iv s2). eauto.
  - pose proof (eval_seq_quiet ns es s IH Hq) as H1.
    destruct (@eval_seq reflib _ (@eval reflib ns) es s); simpl in *;
      split; try done.
    intros ? ? [= <- <-]. by apply plain_values.
Qed.

Ltac meet_import :=
  match goal with
  | |- context [import ?m ?s] =>
      pose proof (import_R m s);
      pose proof (import_tame m s);
      destruct (import m s); simpl in *
  | |- context [import_from ?m ?x ?s] =>
      pose proof (import_from_R m x s);
      pose proof (import_from_tame m x s);
      destruct (import_from m x s); simpl in *
  end.

Ltac meet_eval Ht :=
  match goal with
  | |- context [@eval reflib ?ns ?e ?s] =>
      let Hq := fresh "Hq" in
      assert (quiet e = true) as Hq by assumption;
      let Ho := fresh "Ho" in
      let Hv := fresh "Hv" in
      destruct (eval_quiet ns e Ht Hq s) as [Ho Hv];
      destruct (@eval reflib ns e s); simpl in *
  end.

Ltac meet_set :=
  match goal with
  | |- context [setitem ?c ?i ?v ?s] =>
      pose proof (setitem_R c i v s); destruct (setitem c i v s); simpl in *
  end.

Lemma exec_stmt_quiet (st : stmt) (k : kstate) :
  tame (env k) -> quiet_stmt st = true ->
  tame (env (state_of (exec_stmt st k))) /\
  R (lib k) (lib (state_of (exec_stmt st k))).
Proof.
  intros Ht Hq. destruct st as [m a|m y a|t rhs|e|e]; simpl in *.
  - meet_import; [|done]. meet_import; (split; [|eauto]); [|done].
    apply tame_bind; eauto.
  - apply negb_true_iff, bool_decide_eq_false in Hq.
    meet_import; [|done]. split; [|done]. apply tame_bind; eauto.
  - apply andb_prop in Hq as [Hq1 Hq2].
    meet_eval Ht; [|done].
    destruct t; simpl in *; try done.
    + split; [|done]. apply tame_bind; eauto.
    + apply andb_prop in Hq1 as [Hq1 _].
      meet_eval Ht; [|split; [done|eauto]].
      split; [done|eauto].
    + apply andb_prop in Hq1 as [Hqc Hqi].
      meet_eval Ht; [|split; [done|eauto]].
      meet_eval Ht; [|split; [done|eauto]].
      meet_set; (split; [done|eauto]).
  - meet_eval Ht; done.
  - done.
Qed.

Lemma exec_stmts_quiet (sts : list stmt) (d : option val) (k : kstate) :
  tame (env k) -> forallb quiet_stmt sts = true ->
  tame (env (state_of (exec_stmts sts d k))) /\
  R (lib k) (lib (state_of (exec_stmts sts d k))).
Proof.
  revert d k. induction sts as [|st sts IH]; intros d k Ht Hq; simpl; [done|].
  simpl in Hq. apply andb_prop in Hq as [Hq1 Hq2].
  destruct (exec_stmt_quiet st k Ht Hq1) as [Ht1 Ho1].
  destruct (@exec_stmt reflib st k) as [d1 k1|e1 k1]; simpl in *; [|done].
  destruct (IH d1 k1 Ht1 Hq2) as [Ht2 Ho2].
  split; [done|eauto].
Qed.

(** A quiet cell keeps the namespace tame and respects [R]. *)
Lemma run_cell_quiet (c : cell) (k : kstate) :
  tame (env k) -> quiet_cell c = true ->
  tame (env (state_of (run_cell c k))) /\
  R (lib k) (lib (state_of (run_cell c k))).
Proof.
  unfold quiet_cell, run_cell.
  destruct (parse_cell (cell_text c)); [done|]. apply exec_stmts_quiet.
Qed.

End Analysis.

(** ** The two uses of the analysis *)

(** Values whose call may reach outside the kernel: the four readers and the
    [to_csv] method of a dataframe; and, among them, the one that writes. *)
Definition effectful (v : val) : bool :=
  match v with
  | VObj (OFunc F_read_csv) | VObj (OFunc F_read_file)
  | VObj (OFunc F_from_featureclass) | VObj (OFunc F_from_layer) => true
  | VObj (OMethod (OFrame _) name) => bool_decide (name = "to_csv")
  | _ => false
  end.

Definition writer (v : val) : bool :=
  match v with
  | VObj (OMethod (OFrame _) name) => bool_decide (name = "to_csv")
  | _ => false
  end.

Definition effect_names : list string :=
  ["read_csv"; "read_file"; "from_featureclass"; "from_layer"; "to_csv"].

Definition writer_names : list string := ["to_csv"].

Definition same_outside (s s' : lstate) : Prop :=
  ls_world s' = ls_world s /\ ls_trace s' = ls_trace s.

Definition same_world (s s' : lstate) : Prop := ls_world s' = ls_world s.

Lemma writer_effectful v : effectful v = false -> writer v = false.
Proof. destruct v as [| | | | | |[]]; simpl; done. Qed.

Lemma module_attr_tame m a o :
  module_attr m a = Some o -> a ∉ effect_names -> effectful (VObj o) = false.
Proof.
  unfold module_attr, effect_names. intros H Ha.
  repeat case_bool_decide; simplify_eq; try done; set_solver.
Qed.

Lemma module_attr_no_writer m a o :
  module_attr m a = Some o -> writer (VObj o) = false.
Proof.
  unfold module_attr. intros H. repeat case_bool_decide; simplify_eq; done.
Qed.

Lemma getattr_state v a s : state_of (getattr v a s) = s.
Proof. crush_lib. Qed.

Ltac decided_names :=
  repeat match goal with
         | H : bool_decide _ = true |- _ => apply bool_decide_eq_true_1 in H
         end; subst; try done; try set_solver.

Lemma getattr_tame v a s v' s' :
  getattr v a s = Ok v' s' -> a ∉ effect_names -> effectful v' = false.
Proof.
  intros H Ha. unfold_lib. unfold effect_names in Ha.
  repeat case_match; simplify_eq; try done;
    try (eapply module_attr_tame; [eassumption|done]);
    simpl; try (apply bool_decide_eq_false; set_solver); decided_names.
Qed.

Lemma getattr_no_writer v a s v' s' :
  getattr v a s = Ok v' s' -> a ∉ writer_names -> writer v' = false.
Proof.
  intros H Ha. unfold_lib. unfold writer_names in Ha.
  repeat case_match; simplify_eq; try done;
    try (eapply module_attr_no_writer; eassumption);
    simpl; try (apply bool_decide_eq_false; set_solver); decided_names.
Qed.

Lemma getitem_state v i s : state_of (getitem v i s) = s.
Proof. crush_lib. Qed.

Lemma getitem_tame v i s v' s' : getitem v i s = Ok v' s' -> effectful v' = false.
Proof. intros H. unfold_lib. repeat case_match; simplify_eq; done. Qed.

Lemma call_tame f args kws s v' s' :
  call f args kws s = Ok v' s' -> effectful v' = false.
Proof. intros H. unfold_lib. repeat case_match; simplify_eq; done. Qed.

Lemma call_outside f args kws s :
  effectful f = false -> same_outside s (state_of (call f args kws s)).
Proof.
  intros H. unfold same_outside. unfold_lib.
  repeat case_match; simplify_eq; simpl in *; try done; congruence.
Qed.

Lemma call_world f args kws s :
  writer f = false -> same_world s (state_of (call f args kws s)).
Proof.
  intros H. unfold same_world. unfold_lib.
  repeat case_match; simplify_eq; simpl in *; try done; congruence.
Qed.

Lemma import_outside m s : same_outside s (state_of (import m s)).
Proof. unfold same_outside. crush_lib. Qed.

Lemma import_tame m s v s' : import m s = Ok v s' -> effectful v = false.
Proof. crush_lib. Qed.

Lemma import_from_outside m x s : same_outside s (state_of (import_from m x s)).
Proof. unfold same_outside. crush_lib. Qed.

Lemma import_from_tame m x s v s' :
  import_from m x s = Ok v s' -> x ∉ effect_names -> effectful v = false.
Proof.
  intros H Hx. unfold import_from, import in H.
  repeat case_match; simplify_eq. by eapply module_attr_tame.
Qed.

Lemma import_from_no_writer m x s v s' :
  import_from m x s = Ok v s' -> writer v = false.
Proof.
  intros H. unfold import_from, import in H.
  repeat case_match; simplify_eq. by eapply module_attr_no_writer.
Qed.

Lemma setitem_outside v i x s : same_outside s (state_of (setitem v i x s)).
Proof. unfold same_outside, setitem. crush_lib. Qed.

Lemma builtin_tame x v : builtin x = Some v -> effectful v = false.
Proof. unfold builtin. case_bool_decide; intros; simplify_eq; done. Qed.

Lemma plain_not_effectful v : (forall o, v <> VObj o) -> effectful v = false.
Proof. destruct v; try done. intros H. by destruct (H o). Qed.

Lemma same_outside_world s s' : same_outside s s' -> same_world s s'.
Proof. by intros [? _]. Qed.

(** Cells that name no reader and no [to_csv] leave the disk and the trace
    alone. *)
Lemma run_cell_silent (c : cell) (k : kstate) :
  tame effectful (env k) -> quiet_cell effect_names c = true ->
  tame effectful (env (state_of (run_cell c k))) /\
  same_outside (lib k) (lib (state_of (run_cell c k))).
Proof.
  apply (run_cell_quiet effect_names effectful same_outside).
  - done.
  - unfold same_outside. intros ? ? ? [? ?] [? ?]. split; congruence.
  - apply plain_not_effectful.
  - apply builtin_tame.
  - apply getattr_tame.
  - apply getitem_tame.
  - apply call_tame.
  - apply import_tame.
  - apply import_from_tame.
  - intros. by rewrite getattr_state.
  - intros. by rewrite getitem_state.
  - apply call_outside.
  - apply import_outside.
  - apply import_from_outside.
  - apply setitem_outside.
Qed.

(** Cells that do not name [to_csv] leave the disk alone. *)
Lemma run_cell_keeps_disk (c : cell) (k : kstate) :
  tame writer (env k) -> quiet_cell writer_names c = true ->
  tame writer (env (state_of (run_cell c k))) /\
  same_world (lib k) (lib (state_of (run_cell c k))).
Proof.
  apply (run_cell_quiet writer_names writer same_world).
  - done.
  - unfold same_world. congruence.
  - intros. by apply writer_effectful, plain_not_effectful.
  - intros. by eapply writer_effectful, builtin_tame.
  - apply getattr_no_writer.
  - intros. by eapply writer_effectful, getitem_tame.
  - intros. by eapply writer_effectful, call_tame.
  - intros. by eapply writer_effectful, import_tame.
  - intros. by eapply import_from_no_writer.
  - intros. by rewrite getattr_state.
  - intros. by rewrite getitem_state.
  - apply call_world.
  - intros. by eapply same_outside_world, import_outside.
  - intros. by eapply same_outside_world, import_from_outside.
  - intros. by eapply same_outside_world, setitem_outside.
Qed.

End RefLibFacts.

(** * The lessons, run *)

Module Lessons.
Import Syntax Parser Notebooks Kernel KernelFacts RefLib RefLibFacts.
Local Open Scope list_scope.

Definition csv_path : string := "../data/NC_Charging_Stations.csv".
Definition shp_path : string := "../data/Major_Basins.shp".
Definition zip_path : string := "../data/Major_River_Basins.zip".
Definition geojson_path : string := "../data/Major_River_Basins.geojson".
Definition kml_path : string := "../data/Major_River_Basins.kml".

(** The final kernel of a notebook run cell by cell from a fresh kernel. *)
Definition final (cs : list cell) (w : world) (d : gmap string string) : kstate :=
  snd (run_cells cs (boot w d)).

(** The variable [x] holds the dataframe [f]. *)
Definition holds_frame (k : kstate) (x : string) (f : frame) : Prop :=
  ns_lookup x (env k) = Some (VObj (OFrame f)).

(** A table has valid coordinate columns, giving the points [pts], when the
    [Longitude] and [Latitude] columns exist, are numeric throughout, and pair
    up into one point per row. *)
Definition valid_xy (cols : columns) (pts : list geometry) : Prop :=
  exists xs ys,
    get_column "Longitude" cols = Some xs /\
    get_column "Latitude" cols = Some ys /\
    point_array xs ys = Some pts /\
    length pts = n_rows cols.

Lemma point_array_points (xs ys : list datum) (pts : list geometry) :
  point_array xs ys = Some pts -> Forall (fun g => is_point g = true) pts.
Proof.
  revert ys pts. induction xs as [|x xs IH]; intros ys pts H.
  - destruct ys; simpl in H; [|done]. by simplify_eq.
  - destruct x, ys as [|[] ys]; simpl in H; try done.
    destruct (point_array xs ys) eqn:E; [|done].
    simplify_eq. constructor; [done|]. by eapply IH.
Qed.

(** Symbolic execution: compute, leaving the reads of the outside world and
    the operations on unknown tables as they are. *)
Ltac sym :=
  lazy -[disk_file remote_layer get_column point_array rows_match driver_mode
         enable_driver head_frame readable w_project].

(** The same from an arbitrary kernel state: name lookups stay too. *)
Ltac symk :=
  lazy -[disk_file remote_layer get_column point_array rows_match driver_mode
         enable_driver head_frame readable w_project ns_lookup ns_bind].

Tactic Notation "symk" "in" hyp(H) :=
  lazy -[disk_file remote_layer get_column point_array rows_match driver_mode
         enable_driver head_frame readable w_project ns_lookup ns_bind] in H.

(** A concrete decidable proposition, settled by evaluation. *)
Ltac decided :=
  match goal with
  | |- ?P => apply (bool_decide_unpack P); vm_compute; exact I
  end.

(** One cell at a time: the outcome of the next cell is computed, with [tac]
    supplying what is known of the outside world, before the run goes on. *)
Ltac eval_cell tac :=
  match goal with
  | |- context [run_cell ?c ?k] =>
      let E := fresh "E" in
      eassert (run_cell c k = _) as E
        by (sym; repeat (progress tac; sym); reflexivity);
      rewrite !E; clear E; cbn [state_of]
  end.

Ltac step tac := rewrite run_cells_snd_cons; eval_cell tac.

Ltac step_from tac := rewrite run_from_cons; eval_cell tac.

Lemma rows_match_length (pts : list geometry) (cols : columns) :
  length pts = n_rows cols -> rows_match pts cols = true.
Proof. intros H. unfold rows_match. by apply Nat.eqb_eq. Qed.

(** ** The CSV lesson, in both notebooks *)

Definition sdf_frame (cols : columns) (pts : list geometry) : frame :=
  Frame PandasDataFrame cols (Some ("SHAPE", pts)) (Some (SRef 4326 None)).

Definition gdf_csv_frame (cols : columns) (pts : list geometry) : frame :=
  Frame GeoDataFrame cols (Some ("geometry", pts)) (Some (SRef 4326 None)).

Lemma arcgis_csv_prefix (w : world) (d : gmap string string) (cols : columns)
    (pts : list geometry) :
  disk_file w csv_path = Some (FCsv cols) ->
  valid_xy cols pts ->
  holds_frame (snd (run_cells (take 4 arcgis_cells) (boot w d))) "sdf"
              (sdf_frame cols pts).
Proof.
  intros Hcsv (xs & ys & Hx & Hy & Hp & Hn).
  unfold holds_frame, csv_path in *.
  cbv beta iota delta [take arcgis_cells].
  do 4 step ltac:(rewrite ?Hcsv, ?Hx, ?Hy, ?Hp).
  reflexivity.
Qed.

Lemma geopandas_csv_prefix (w : world) (d : gmap string string) (cols : columns)
    (pts : list geometry) :
  disk_file w csv_path = Some (FCsv cols) ->
  valid_xy cols pts ->
  holds_frame (snd (run_cells (take 7 geopandas_cells) (boot w d))) "gdf_csv"
              (gdf_csv_frame cols pts).
Proof.
  intros Hcsv (xs & ys & Hx & Hy & Hp & Hn).
  apply rows_match_length in Hn.
  unfold holds_frame, csv_path in *.
  cbv beta iota delta [take geopandas_cells].
  do 7 step ltac:(rewrite ?Hcsv, ?Hx, ?Hy, ?Hp, ?Hn).
  reflexivity.
Qed.

Lemma final_split (n : nat) (cs : list cell) (w : world) (d : gmap string string) :
  final cs w d = snd (run_cells (drop n cs) (snd (run_cells (take n cs) (boot w d)))).
Proof.
  unfold final. rewrite <- (take_drop n cs) at 1. by rewrite run_cells_app.
Qed.

(** C1: for every CSV file with valid longitude and latitude columns,
    building a spatial dataframe from it with spatial reference 4326 (through
    [GeoAccessor.from_xy] in the ArcGIS notebook, through [gpd.points_from_xy]
    and [gpd.GeoDataFrame] in the GeoPandas notebook) leaves a dataframe whose
    geometry column holds the points of those columns, all of point type,
    tagged with reference system 4326. *)
Theorem csv_frames_are_points_in_4326 (w : world) (d : gmap string string)
    (cols : columns) (pts : list geometry) :
  disk_file w csv_path = Some (FCsv cols) ->
  valid_xy cols pts ->
  Forall (fun g => is_point g = true) pts /\
  holds_frame (final arcgis_cells w d) "sdf" (sdf_frame cols pts) /\
  holds_frame (final geopandas_cells w d) "gdf_csv" (gdf_csv_frame cols pts).
Proof.
  intros Hcsv Hxy. split; [|split].
  - destruct Hxy as (xs & ys & _ & _ & Hp & _). by eapply point_array_points.
  - unfold holds_frame. rewrite (final_split 4).
    rewrite run_cells_env by decided. by apply arcgis_csv_prefix.
  - unfold holds_frame. rewrite (final_split 7).
    rewrite run_cells_env by decided. by apply geopandas_csv_prefix.
Qed.

Import Sample.

Lemma csv_frames_are_points_in_4326_witness :
  Forall (fun g => is_point g = true) station_points /\
  holds_frame (final arcgis_cells sample_world default_drivers) "sdf"
              (sdf_frame stations station_points) /\
  holds_frame (final geopandas_cells sample_world default_drivers) "gdf_csv"
              (gdf_csv_frame stations station_points).
Proof.
  apply (csv_frames_are_points_in_4326 sample_world default_drivers
           stations station_points).
  - vm_compute. reflexivity.
  - exists [dec (-78643470) (-6); dec (-78642287) (-6); dec (-80622777) (-6)],
           [dec 35778416 (-6); dec 35774350 (-6); dec 35392063 (-6)].
    vm_compute. repeat split; reflexivity.
Defined.

(** ** Exceptions *)

Definition cell_keywords (c : cell) : option (list string) :=
  match Lexer.lex (cell_text c) with
  | inl _ => None
  | inr ts =>
      Some (omap (fun t => match t with Lexer.TKeyword k => Some k | _ => None end) ts)
  end.

(** The cell lexes and uses none of the keywords [kws]. *)
Definition free_of (kws : list string) (c : cell) : bool :=
  match cell_keywords c with
  | None => false
  | Some ks => forallb (fun k => negb (bool_decide (k ∈ kws))) ks
  end.

(** Python's means of handling, retrying after or recovering from an
    exception. *)
Definition handler_keywords : list string :=
  ["try"; "except"; "finally"; "with"; "raise"; "assert"; "while"; "for"].

(** C6: no code cell of either notebook holds error handling, retry or
    recovery logic, and every library call is unguarded: whatever library is
    behind the cells, a cell that ends normally met no library exception, and a
    cell that ends with an exception ends with exactly the exception the
    library raised (or with the kernel's own NameError or SyntaxError). *)
Theorem cells_are_unguarded (L : Library) :
  Forall (fun c => free_of handler_keywords c = true) all_cells /\
  forall (c : cell) (k : @kstate (recording L)),
    faithful_run L (seen L k) (@run_cell (recording L) c k).
Proof.
  split.
  - decided.
  - apply run_cell_faithful.
Qed.

(** ** The driver registry *)

Definition enabling_cell_id : string := "e58bade8".
Definition kml_cell_id : string := "e23ea255".

Definition geopandas_module : value obj := VObj (OModule ["geopandas"]).

(** Running the cell leaves Fiona's registry as it was, whatever the kernel
    state. *)
Definition leaves_registry (c : cell) : Prop :=
  forall k : kstate, ls_drivers (lib (state_of (run_cell c k))) = ls_drivers (lib k).

Lemma plain_cells_leave_registry :
  Forall (fun c => cell_id c <> enabling_cell_id -> leaves_registry c) all_cells.
Proof.
  assert (Forall (fun c => cell_id c = enabling_cell_id \/ cell_plain c = true)
                 all_cells) as H by decided.
  eapply Forall_impl; [exact H|].
  intros c [Hid|Hp] Hne k; [done|]. by apply run_cell_drivers.
Qed.

(** Once the first cell has imported GeoPandas, [gpd] stays the GeoPandas
    module through any cells that do not bind the name again. *)
Lemma gpd_after_import (w : world) (d : gmap string string) (c : cell)
    (cs : list cell) :
  geopandas_cells !! 0 = Some c ->
  "gpd" ∉ concat (map cell_binders cs) ->
  ns_lookup "gpd" (env (snd (run_cells (c :: cs) (boot w d))))
  = Some geopandas_module.
Proof.
  intros Hc Hcs. injection Hc as <-.
  rewrite run_cells_snd_cons, run_cells_env by done. reflexivity.
Qed.

(** The cell [gpd.io.file.fiona.drvsupport.supported_drivers['KML'] = 'rw']. *)
Lemma enabling_cell_run (c : cell) (k : kstate) :
  find_cell enabling_cell_id geopandas_cells = Some c ->
  ns_lookup "gpd" (env k) = Some geopandas_module ->
  run_cell c k =
  Ok None (KState (env k)
            (LState (ls_world (lib k)) (enable_driver (ls_drivers (lib k)) "KML" "rw")
                    (ls_loaded (lib k)) (ls_trace (lib k)))).
Proof.
  intros Hc Hgpd. vm_compute in Hc. injection Hc as <-.
  symk. symk in Hgpd. rewrite Hgpd. reflexivity.
Qed.

Lemma before_enabling_cell (w : world) (d : gmap string string) :
  let k := snd (run_cells (take 23 geopandas_cells) (boot w d)) in
  ns_lookup "gpd" (env k) = Some geopandas_module /\ ls_drivers (lib k) = d.
Proof.
  split.
  - cbv beta iota zeta delta [take geopandas_cells].
    apply gpd_after_import; [reflexivity|decided].
  - cbv zeta. rewrite run_cells_drivers; [reflexivity|]. vm_compute. reflexivity.
Qed.

Lemma geopandas_registry_from (w : world) (d : gmap string string) (n : nat) :
  24 <= n ->
  ls_drivers (lib (snd (run_cells (take n geopandas_cells) (boot w d))))
  = enable_driver d "KML" "rw".
Proof.
  intros Hn.
  destruct (before_enabling_cell w d) as [Hgpd Hd]. cbv zeta in Hgpd, Hd.
  replace (take n geopandas_cells)
    with (take 23 geopandas_cells ++ drop 23 (take n geopandas_cells))
    by (rewrite <- (take_drop 23 (take n geopandas_cells)) at 2;
        by rewrite take_take, Nat.min_l by lia).
  rewrite run_cells_app. cbn [snd].
  set (k := snd (run_cells (take 23 geopandas_cells) (boot w d))) in *.
  clearbody k.
  assert (exists c rest, drop 23 (take n geopandas_cells) = c :: rest /\
            find_cell enabling_cell_id geopandas_cells = Some c /\
            forallb cell_plain rest = true) as (c & rest & -> & Hc & Hrest).
  { destruct n as [|n]; [lia|]. do 23 (destruct n as [|n]; [lia|]).
    destruct n as [|n]; [|destruct n as [|n]].
    - do 2 eexists. split; [reflexivity|]. split; vm_compute; reflexivity.
    - do 2 eexists. split; [reflexivity|]. split; vm_compute; reflexivity.
    - do 2 eexists. split; [reflexivity|]. split; vm_compute; reflexivity. }
  rewrite run_cells_snd_cons, run_cells_drivers by done.
  rewrite (enabling_cell_run c k Hc Hgpd). cbn. f_equal. exact Hd.
Qed.

(** X1: exactly one code cell assigns into a library-owned data structure.
    Cell e58bade8 sets key ['KML'] of Fiona's supported-driver registry to
    ['rw'], and the change outlives the cell: up to that cell the registry is
    the one the kernel started with, from that cell on it is that registry with
    the new entry, to the end of the session.  Every other code cell of both
    notebooks leaves the registry as it found it, whatever the kernel state, and
    the ArcGIS notebook ends with the registry it started with. *)
Theorem only_the_kml_cell_changes_the_registry :
  Forall (fun c => cell_id c <> enabling_cell_id -> leaves_registry c) all_cells /\
  (forall (w : world) (d : gmap string string) (n : nat),
      n <= 23 ->
      ls_drivers (lib (snd (run_cells (take n geopandas_cells) (boot w d)))) = d) /\
  (forall (w : world) (d : gmap string string) (n : nat),
      24 <= n ->
      ls_drivers (lib (snd (run_cells (take n geopandas_cells) (boot w d))))
      = enable_driver d "KML" "rw") /\
  (forall (w : world) (d : gmap string string),
      ls_drivers (lib (final arcgis_cells w d)) = d).
Proof.
  split; [|split; [|split]].
  - apply plain_cells_leave_registry.
  - intros w d n Hn. rewrite run_cells_drivers; [reflexivity|].
    apply Is_true_true, forallb_True.
    rewrite <- (Nat.min_l n 23), <- take_take by lia.
    apply Forall_take, forallb_True, Is_true_true. vm_compute. reflexivity.
  - apply geopandas_registry_from.
  - intros w d. unfold final. rewrite run_cells_drivers; [reflexivity|].
    vm_compute. reflexivity.
Qed.

(** ** Text that does not parse, and text that does *)

Definition dangling_cell_id : string := "9c72dc44".

Definition parses (c : cell) : bool :=
  match parse_cell (cell_text c) with
  | inl _ => false
  | inr _ => true
  end.

(** X2: the ArcGIS notebook's cell [GeoAccessor.] ends in a dot with no
    attribute name after it, so it is no Python: whatever library is behind the
    kernel and whatever the kernel holds, running it raises SyntaxError before
    any statement runs and leaves the kernel as it was.  It is the only code
    cell of the two notebooks that does not parse. *)
Theorem dangling_attribute_cell_is_a_syntax_error (L : Library) :
  (exists c, find_cell dangling_cell_id arcgis_cells = Some c /\
     parse_cell (cell_text c)
       = inl (ParseError (ExpectedName [Lexer.TNewline])) /\
     forall k : @kstate L, run_cell c k = Raise syntax_exn k) /\
  Forall (fun c => cell_id c <> dangling_cell_id -> parses c = true) all_cells.
Proof.
  split.
  - eexists. split; [vm_compute; reflexivity|]. split; [vm_compute; reflexivity|].
    intros k. unfold run_cell.
    replace (parse_cell _) with
      (@inl syntax_error (list stmt) (ParseError (ExpectedName [Lexer.TNewline])))
      by (vm_compute; reflexivity).
    reflexivity.
  - decided.
Qed.

Definition uses_only (kws : list string) (c : cell) : bool :=
  match cell_keywords c with
  | None => false
  | Some ks => forallb (fun k => bool_decide (k ∈ kws)) ks
  end.

(** X3: every code cell of both notebooks is straight-line code: each one
    lexes, and the only reserved words of Python any of them uses are [import],
    [from], [as] and [True]; no cell branches, loops, defines a function or a
    class, or handles an exception. *)
Theorem cells_are_straight_line :
  Forall (fun c => uses_only ["import"; "from"; "as"; "True"] c = true) all_cells.
Proof. decided. Qed.

(** ** Which cells bind, and which only look *)








(** ** Order of the cells *)

(** X6: the cells come in dependency order.  In both notebooks every name a
    cell reads is Python's builtin [type] or is bound by an earlier cell (or by
    an earlier statement of the same cell); and, for any library, once that
    earlier cell has succeeded the name is bound when the later cell runs.  So
    a top-to-bottom run can meet an unbound name only after the cell that binds
    it has itself failed. *)
Theorem names_are_bound_before_use (L : Library) (s : @Kernel.lstate L)
    (cells : list cell) (n : nat) (c : cell) (x : string) :
  cells ∈ notebooks ->
  cells !! n = Some c ->
  x ∈ cell_needs c ->
  x = "type" \/
  exists j c',
    j < n /\ cells !! j = Some c' /\ x ∈ cell_binders c' /\
    forall r,
      fst (run_cells cells (fresh s)) !! j = Some r -> succeeded r = true ->
      bound x (snd (run_cells (take n cells) (fresh s))).
Proof.
  intros Hnb Hn Hx.
  assert (ordered_from ["type"] cells = true) as Ho.
  { unfold notebooks in Hnb.
    apply elem_of_cons in Hnb as [->|Hnb]; [vm_compute; reflexivity|].
    apply list_elem_of_singleton in Hnb as ->. vm_compute. reflexivity. }
  destruct (ordered_from_lookup _ _ _ _ _ Ho Hn Hx) as [Hb|(j & c' & Hj & Hc' & Hb)].
  - left. by apply list_elem_of_singleton in Hb.
  - right. exists j, c'. repeat split; try done.
    intros r Hr Hs. by eapply bound_since.
Qed.

Lemma names_are_bound_before_use_witness :
  "sdf" = "type" \/
  exists j c',
    j < 4 /\ arcgis_cells !! j = Some c' /\ "sdf" ∈ cell_binders c' /\
    forall r,
      fst (run_cells arcgis_cells (boot sample_world default_drivers)) !! j = Some r ->
      succeeded r = true ->
      bound "sdf" (snd (run_cells (take 4 arcgis_cells)
                                  (boot sample_world default_drivers))).
Proof.
  apply (names_are_bound_before_use reflib
           (LState sample_world default_drivers [] []) arcgis_cells 4
           (Cell "2f406e70" (Some 6) ["#View a few records"; "sdf.head()"] None)
           "sdf").
  - decided.
  - vm_compute. reflexivity.
  - decided.
Defined.


(** ** The cell that was meant to project *)

Definition projection_cell_id : string := "53939654".

Definition int_path_error : exn :=
  Exn "ValueError" "Invalid file path or buffer object type: <class 'int'>".

Lemma module_has_no_to_csv (m : list string) : module_attr m "to_csv" = None.
Proof. unfold module_attr. repeat case_bool_decide; done. Qed.

(** Only a dataframe has a [to_csv], and it refuses an integer. *)
Lemma to_csv_refuses_int (v fv : val) (s s' : lstate) (n : Z) :
  getattr v "to_csv" s = Ok fv s' ->
  s' = s /\ call fv [VInt n] [] s = Raise int_path_error s.
Proof.
  intros H. destruct v as [| | | | | |o]; try done.
  destruct o; simpl in H; try done.
  - by rewrite module_has_no_to_csv in H.
  - by repeat case_match.
  - unfold frame_attr in H.
    rewrite bool_decide_eq_true_2 in H by (destruct (f_class f); set_solver).
    by simplify_eq.
  - unfold accessor_attr in H. by repeat case_match.
Qed.

Ltac symc :=
  lazy -[ns_lookup ns_bind getattr call read_file read_csv from_featureclass
         from_layer].

Tactic Notation "symc" "in" hyp(H) :=
  lazy -[ns_lookup ns_bind getattr call read_file read_csv from_featureclass
         from_layer] in H.

Lemma projection_cell_run (c : cell) (k : kstate) :
  find_cell projection_cell_id geopandas_cells = Some c ->
  exists e, run_cell c k = Raise e k /\
    forall f, holds_frame k "gdf_csv" f -> e = int_path_error.
Proof.
  intros Hc. vm_compute in Hc. injection Hc as <-. destruct k as [ns s].
  unfold holds_frame. symc.
  match goal with
  | |- context [@ns_lookup ?V ?x ns] => destruct (@ns_lookup V x ns) as [v|] eqn:E
  end.
  - match goal with
    | |- context [getattr v ?a s] =>
        pose proof (getattr_state v a s) as Hs;
        pose proof (to_csv_refuses_int v) as Hi;
        destruct (getattr v a s) as [fv s'|e s'] eqn:G
    end.
    + destruct (Hi fv s s' 32617%Z) as [-> Hcall]; [exact G|].
      symc in Hcall. rewrite Hcall. eexists. split; [reflexivity|]. done.
    + simpl in Hs. subst s'. eexists. split; [reflexivity|].
      intros f [= ->]. simpl in G. unfold frame_attr in G.
      rewrite bool_decide_eq_true_2 in G by (destruct (f_class f); set_solver).
      done.
  - eexists. split; [reflexivity|]. intros f H. discriminate.
Qed.

(** A cell is inert when running it leaves the kernel as it found it,
    whatever the kernel holds. *)
Definition inert (c : cell) : Prop :=
  forall k : kstate, state_of (run_cell c k) = k.

Lemma projection_cell_inert (c : cell) :
  find_cell projection_cell_id geopandas_cells = Some c -> inert c.
Proof.
  intros Hc k. destruct (projection_cell_run c k Hc) as (e & -> & _). reflexivity.
Qed.

(** ** Writes *)

Definition is_write (a : access) : bool :=
  match a with
  | Wrote _ => true
  | _ => false
  end.

Definition writes (s : lstate) : list access := List.filter is_write (ls_trace s).

Definition nothing_written (s s' : lstate) : Prop :=
  ls_world s' = ls_world s /\ writes s' = writes s.

Lemma same_outside_written (s s' : lstate) :
  same_outside s s' -> nothing_written s s'.
Proof. intros [Hw Ht]. split; [done|]. unfold writes. by rewrite Ht. Qed.

Lemma call_writes_nothing f args kws s :
  writer f = false -> nothing_written s (state_of (call f args kws s)).
Proof.
  intros H. unfold nothing_written, writes. unfold_lib.
  repeat case_match; simplify_eq; simpl in *; try done; congruence.
Qed.

(** Cells that do not name [to_csv] write nothing. *)
Lemma run_cell_writes_nothing (c : cell) (k : kstate) :
  tame writer (env k) -> quiet_cell writer_names c = true ->
  tame writer (env (state_of (run_cell c k))) /\
  nothing_written (lib k) (lib (state_of (run_cell c k))).
Proof.
  apply (run_cell_quiet writer_names writer nothing_written).
  - done.
  - unfold nothing_written. intros ? ? ? [? ?] [? ?]. split; congruence.
  - intros. by apply writer_effectful, plain_not_effectful.
  - intros. by eapply writer_effectful, builtin_tame.
  - apply getattr_no_writer.
  - intros. by eapply writer_effectful, getitem_tame.
  - intros. by eapply writer_effectful, call_tame.
  - intros. by eapply writer_effectful, import_tame.
  - intros. by eapply import_from_no_writer.
  - intros. by rewrite getattr_state.
  - intros. by rewrite getitem_state.
  - apply call_writes_nothing.
  - intros. by eapply same_outside_written, import_outside.
  - intros. by eapply same_outside_written, import_from_outside.
  - intros. by eapply same_outside_written, setitem_outside.
Qed.

Lemma run_cells_write_nothing (cs : list cell) (k : kstate) :
  tame writer (env k) ->
  Forall (fun c => quiet_cell writer_names c = true \/ inert c) cs ->
  tame writer (env (snd (run_cells cs k))) /\
  nothing_written (lib k) (lib (snd (run_cells cs k))).
Proof.
  intros Ht H. revert k Ht.
  induction H as [|c cs Hc _ IH]; intros k Ht; [done|].
  rewrite run_cells_snd_cons.
  assert (tame writer (env (state_of (run_cell c k))) /\
          nothing_written (lib k) (lib (state_of (run_cell c k)))) as [Ht1 [Hw1 Hx1]].
  { destruct Hc as [Hq|Hi]; [by apply run_cell_writes_nothing|].
    by rewrite Hi. }
  destruct (IH _ Ht1) as [Ht2 [Hw2 Hx2]].
  split; [done|]. split; congruence.
Qed.

Lemma cells_name_no_writer_but_one :
  Forall (fun c => quiet_cell writer_names c = true \/
                   find_cell projection_cell_id geopandas_cells = Some c) all_cells.
Proof. decided. Qed.

(** X7: neither notebook ever writes to the disk.  Whatever the files
    and services hold and whatever drivers Fiona starts with, after any number
    of cells of either notebook the outside world is the one the kernel started
    in and the library has made no write.  The only cell that names a writing
    method is the one that calls [to_csv], and that call is refused before a
    file is opened. *)
Theorem nothing_is_written :
  Forall (fun cells =>
            forall (w : world) (d : gmap string string) (n : nat),
              let k := snd (run_cells (take n cells) (boot w d)) in
              ls_world (lib k) = w /\ writes (lib k) = [])
         notebooks.
Proof.
  assert (forall cells, cells ⊆ all_cells ->
            forall (w : world) (d : gmap string string) (n : nat),
              let k := snd (run_cells (take n cells) (boot w d)) in
              ls_world (lib k) = w /\ writes (lib k) = []) as H.
  { intros cells Hsub w d n.
    destruct (run_cells_write_nothing (take n cells) (boot w d)) as [_ H].
    - apply tame_nil.
    - apply Forall_take, Forall_forall. intros c Hc.
      pose proof cells_name_no_writer_but_one as Hall.
      rewrite Forall_forall in Hall.
      destruct (Hall c (Hsub c Hc)) as [Hq|Hp]; [by left|right].
      by apply projection_cell_inert.
    - exact H. }
  unfold notebooks, all_cells in *.
  repeat apply Forall_cons_2; [| |apply Forall_nil_2]; apply H; intros c Hc;
    apply elem_of_app; [by left|by right].
Qed.

Lemma gdf_utm_never_bound (w : world) (d : gmap string string) (n : nat) :
  ns_lookup "gdf_utm" (env (snd (run_cells (take n geopandas_cells) (boot w d))))
  = None.
Proof.
  assert (forall cs k,
             Forall (fun c => "gdf_utm" ∉ cell_binders c \/ inert c) cs ->
             ns_lookup "gdf_utm" (env (snd (run_cells cs k)))
             = ns_lookup "gdf_utm" (env k)) as H.
  { intros cs k Hcs. revert k. induction Hcs as [|c cs Hc _ IH]; intros k; [done|].
    rewrite run_cells_snd_cons, IH.
    destruct Hc as [Hb|Hi]; [by apply run_cell_env|by rewrite Hi]. }
  rewrite H; [reflexivity|].
  apply Forall_take.
  assert (Forall (fun c => "gdf_utm" ∉ cell_binders c \/
                           find_cell projection_cell_id geopandas_cells = Some c)
                 geopandas_cells) as Hall by decided.
  eapply Forall_impl; [exact Hall|].
  intros c [Hb|Hp]; [by left|right]. by apply projection_cell_inert.
Qed.

(** X8: the cell commented "Project to UTM Zone 17N" calls
    [gdf_csv.to_csv(32617)], not [to_crs].  In every kernel state it ends with
    an exception and leaves the kernel exactly as it found it; where [gdf_csv]
    is a dataframe the exception is the [ValueError] pandas raises for an
    integer given as a path.  So [gdf_utm] is never bound: it is unbound after
    any number of cells of the notebook, in every world. *)
Theorem projection_cell_always_fails :
  exists c,
    find_cell projection_cell_id geopandas_cells = Some c /\
    parse_cell (cell_text c)
      = inr [SAssign (EName "gdf_utm")
               (ECall (EAttr (EName "gdf_csv") "to_csv") [EConst (CInt 32617)] [])] /\
    (forall k : kstate,
        exists e, run_cell c k = Raise e k /\
                  forall f, holds_frame k "gdf_csv" f -> e = int_path_error) /\
    (forall (w : world) (d : gmap string string) (n : nat),
        ns_lookup "gdf_utm" (env (snd (run_cells (take n geopandas_cells) (boot w d))))
        = None).
Proof.
  eexists. split; [vm_compute; reflexivity|]. split; [vm_compute; reflexivity|].
  split.
  - intros k. by apply projection_cell_run.
  - apply gdf_utm_never_bound.
Qed.

(** ** Run All *)

Section RunAll.
Context {L : Library}.

(** Running the cell ends with an exception whatever the kernel holds. *)
Definition always_raises (c : cell) : Prop :=
  forall k : @kstate L, exists e k', @run_cell L c k = Raise e k'.

Lemma run_all_cut (cs1 cs2 : list cell) (c : cell) (k : @kstate L) :
  always_raises c -> run_all (cs1 ++ c :: cs2) k = run_all (cs1 ++ [c]) k.
Proof.
  intros Hc. revert k. induction cs1 as [|c1 cs1 IH]; intros k; simpl.
  - destruct (Hc k) as (e & k' & ->). reflexivity.
  - destruct (run_cell c1 k); [apply IH|reflexivity].
Qed.

Lemma run_all_stops (cs : list cell) (c : cell) (k : @kstate L) :
  always_raises c ->
  exists id e, fst (run_all (cs ++ [c]) k) = Some (id, e) /\
               id ∈ map cell_id (cs ++ [c]).
Proof.
  intros Hc. revert k. induction cs as [|c1 cs IH]; intros k; simpl.
  - destruct (Hc k) as (e & k' & ->). do 2 eexists. split; [reflexivity|].
    set_solver.
  - destruct (run_cell c1 k) as [d k1|e k1].
    + destruct (IH k1) as (id & e & H1 & H2). exists id, e. split; [done|].
      by apply elem_of_cons; right.
    + do 2 eexists. split; [reflexivity|]. by apply elem_of_cons; left.
Qed.

Lemma run_all_env (cs : list cell) (k : @kstate L) (x : string) :
  x ∉ concat (map cell_binders cs) ->
  ns_lookup x (env (snd (run_all cs k))) = ns_lookup x (env k).
Proof.
  revert k. induction cs as [|c cs IH]; intros k Hx; [done|].
  simpl in Hx. apply not_elem_of_app in Hx as [H1 H2].
  pose proof (run_cell_env c k x H1) as Hc. simpl.
  destruct (run_cell c k) as [d k1|e k1]; simpl in *; [|done].
  by rewrite IH.
Qed.

(** Run All ends in the state some prefix of the cells leaves. *)
Lemma run_all_prefix (cs : list cell) (k : @kstate L) :
  exists j, j <= length cs /\
    snd (run_all cs k) = snd (run_cells (take j cs) k).
Proof.
  revert k. induction cs as [|c cs IH]; intros k.
  - exists 0. done.
  - simpl. destruct (run_cell c k) as [d k1|e k1] eqn:E.
    + destruct (IH k1) as (j & Hj & H). exists (S j). split; [lia|].
      rewrite H. cbn [take]. rewrite run_cells_snd_cons, E. reflexivity.
    + exists 1. split; [lia|]. cbn [take]. rewrite run_cells_snd_cons, E.
      reflexivity.
Qed.

End RunAll.

Definition unbound {L : Library} (k : @kstate L) (x : string) : Prop :=
  ns_lookup x (env k) = None.

(** X9: Run All cannot get through the ArcGIS notebook.  Whatever library
    is behind the kernel, a run that stops at the first failing cell stops with
    an exception at one of the first fifteen cells (the fifteenth, [GeoAccessor.],
    is no Python), so the feature-layer part of the lesson never runs: the
    names [FeatureLayer], [state_layer_url], [county_layer_url], [state_layer]
    and [sdf_state] are unbound when the run ends. *)
Theorem run_all_never_reaches_the_feature_layers (L : Library)
    (s : @Kernel.lstate L) :
  exists id e,
    fst (run_all arcgis_cells (fresh s)) = Some (id, e) /\
    id ∈ map cell_id (take 15 arcgis_cells) /\
    Forall (unbound (snd (run_all arcgis_cells (fresh s))))
           ["FeatureLayer"; "state_layer_url"; "county_layer_url"; "state_layer";
            "sdf_state"].
Proof.
  assert (exists c, arcgis_cells = take 14 arcgis_cells ++ c :: drop 15 arcgis_cells
                    /\ take 15 arcgis_cells = take 14 arcgis_cells ++ [c]
                    /\ @always_raises L c) as (c & Hsplit & Htake & Hc).
  { eexists. split; [reflexivity|]. split; [reflexivity|].
    intros k. exists syntax_exn, k. unfold run_cell.
    replace (parse_cell _) with
      (@inl syntax_error (list stmt) (ParseError (ExpectedName [Lexer.TNewline])))
      by (vm_compute; reflexivity).
    reflexivity. }
  assert (run_all arcgis_cells (fresh s) = run_all (take 15 arcgis_cells) (fresh s))
    as ->.
  { rewrite Htake. rewrite Hsplit at 1. by apply run_all_cut. }
  destruct (run_all_stops (take 14 arcgis_cells) c (fresh s) Hc) as (id & e & H1 & H2).
  rewrite <- Htake in H1, H2.
  exists id, e. split; [done|]. split; [done|].
  repeat apply Forall_cons_2; try apply Forall_nil_2;
    unfold unbound; rewrite run_all_env by decided; reflexivity.
Qed.



(** X10: Run All cannot get through the GeoPandas notebook either.  In
    every world the run stops with an exception at one of the first twelve
    cells (the twelfth is the [to_csv] call that always fails), so none of the
    file-reading lessons after it runs: [gdf_utm], [gdf_shp], [gdf_geojson],
    [fiona] and [gdf_kml] are unbound when it ends, and Fiona's registry is
    the one the kernel started with. *)
Theorem run_all_stops_by_the_projection_cell (w : world) (d : gmap string string) :
  exists id e,
    fst (run_all geopandas_cells (boot w d)) = Some (id, e) /\
    id ∈ map cell_id (take 12 geopandas_cells) /\
    Forall (unbound (snd (run_all geopandas_cells (boot w d))))
           ["gdf_utm"; "gdf_shp"; "gdf_geojson"; "fiona"; "gdf_kml"] /\
    ls_drivers (lib (snd (run_all geopandas_cells (boot w d)))) = d.
Proof.
  assert (exists c, geopandas_cells
                    = take 11 geopandas_cells ++ c :: drop 12 geopandas_cells
                    /\ take 12 geopandas_cells = take 11 geopandas_cells ++ [c]
                    /\ find_cell projection_cell_id geopandas_cells = Some c)
    as (c & Hsplit & Htake & Hc).
  { eexists. split; [reflexivity|]. split; reflexivity. }
  assert (@always_raises reflib c) as Hr.
  { intros k. destruct (projection_cell_run c k Hc) as (e & He & _). eauto. }
  assert (run_all geopandas_cells (boot w d)
          = run_all (take 12 geopandas_cells) (boot w d)) as ->.
  { rewrite Htake. rewrite Hsplit at 1. by apply run_all_cut. }
  destruct (run_all_stops (take 11 geopandas_cells) c (boot w d) Hr)
    as (id & e & H1 & H2).
  rewrite <- Htake in H1, H2.
  exists id, e. split; [done|]. split; [done|]. split.
  - apply Forall_cons_2.
    + unfold unbound.
      destruct (run_all_prefix (take 12 geopandas_cells) (boot w d)) as (j & Hj & ->).
      rewrite take_take. apply gdf_utm_never_bound.
    + repeat apply Forall_cons_2; try apply Forall_nil_2;
        unfold unbound; rewrite run_all_env by decided; reflexivity.
  - destruct (run_all_prefix (take 12 geopandas_cells) (boot w d)) as (j & Hj & ->).
    rewrite run_cells_drivers; [reflexivity|].
    apply Is_true_true, forallb_True, Forall_take.
    apply forallb_True, Is_true_true. vm_compute. reflexivity.
Qed.




(** ** Reading the KML file *)

Definition driver_error_type : string := "fiona.errors.DriverError".

(** Asking Fiona for a driver its registry does not hold fails, whatever the
    file is. *)
Lemma read_file_unregistered (p drv : string) (s : lstate) :
  driver_mode (ls_drivers s) drv = None ->
  exists msg, read_file p (Some drv) s
              = Raise (Exn driver_error_type msg) (log (Opened p) s).
Proof.
  intros H. unfold read_file, driver_error, raise. cbn [ls_world ls_drivers log].
  repeat case_match; try by eexists.
  apply bool_decide_eq_true_1 in H2. subst. congruence.
Qed.

Lemma read_file_unsupported (p drv : string) (vd : vector_data) (s : lstate) :
  disk_file (ls_world s) p = Some (FVector drv vd) ->
  driver_mode (ls_drivers s) drv = None ->
  read_file p (Some drv) s
  = Raise (Exn driver_error_type ("unsupported driver: '" ++ drv ++ "'"))
          (log (Opened p) s).
Proof.
  intros Hf Hd. unfold read_file, driver_error, raise.
  cbn [ls_world ls_drivers log]. rewrite Hf, Hd.
  by rewrite bool_decide_eq_true_2.
Qed.

Lemma read_file_registered (p drv mode : string) (vd : vector_data) (s : lstate) :
  disk_file (ls_world s) p = Some (FVector drv vd) ->
  driver_mode (ls_drivers s) drv = Some mode ->
  readable mode = true ->
  read_file p (Some drv) s
  = Ok (VObj (OFrame (vector_frame GeoDataFrame "geometry" vd))) (log (Opened p) s).
Proof.
  intros Hf Hd Hm. unfold read_file. cbn [ls_world ls_drivers log].
  rewrite Hf, Hd, Hm. by rewrite bool_decide_eq_true_2.
Qed.

(** Symbolic execution that leaves the four readers as calls. *)
Ltac symr :=
  lazy -[ns_lookup ns_bind read_file read_csv from_featureclass from_layer
         get_column head_frame].

Tactic Notation "symr" "in" hyp(H) :=
  lazy -[ns_lookup ns_bind read_file read_csv from_featureclass from_layer
         get_column head_frame] in H.

Lemma kml_cell_fails (c : cell) (k : kstate) (e : exn) (s : lstate) :
  find_cell kml_cell_id geopandas_cells = Some c ->
  ns_lookup "gpd" (env k) = Some geopandas_module ->
  read_file kml_path (Some "KML") (lib k) = Raise e s ->
  run_cell c k = Raise e (KState (env k) s).
Proof.
  intros Hc Hgpd Hr. vm_compute in Hc. injection Hc as <-.
  symr in Hgpd. unfold kml_path in Hr. symr in Hr. symr.
  rewrite Hgpd. symr. rewrite Hr. reflexivity.
Qed.

Lemma kml_cell_binds (c : cell) (k : kstate) (vd : vector_data) (s : lstate) :
  find_cell kml_cell_id geopandas_cells = Some c ->
  ns_lookup "gpd" (env k) = Some geopandas_module ->
  read_file kml_path (Some "KML") (lib k)
    = Ok (VObj (OFrame (vector_frame GeoDataFrame "geometry" vd))) s ->
  state_of (run_cell c k)
  = KState (ns_bind "gdf_kml" (VObj (OFrame (vector_frame GeoDataFrame "geometry" vd)))
                    (env k)) s.
Proof.
  intros Hc Hgpd Hr. vm_compute in Hc. injection Hc as <-.
  symr in Hgpd. unfold kml_path in Hr. symr in Hr. symr.
  rewrite Hgpd. symr. rewrite Hr. symr. rewrite ns_lookup_bind_eq. symr.
  match goal with
  | |- context [get_column ?x ?cs] => destruct (get_column x cs)
  end; reflexivity.
Qed.

(** The notebook with the cell that enables the driver left out. *)
Definition without_enabling_cell : list cell :=
  List.filter (fun c => negb (bool_decide (cell_id c = enabling_cell_id)))
              geopandas_cells.

Lemma world_is_kept (cs : list cell) (w : world) (d : gmap string string) (n : nat) :
  cs ⊆ all_cells ->
  ls_world (lib (snd (run_cells (take n cs) (boot w d)))) = w.
Proof.
  intros Hsub.
  destruct (run_cells_write_nothing (take n cs) (boot w d)) as [_ [H _]].
  - apply tame_nil.
  - apply Forall_take, Forall_forall. intros c Hc.
    pose proof cells_name_no_writer_but_one as Hall.
    rewrite Forall_forall in Hall.
    destruct (Hall c (Hsub c Hc)) as [Hq|Hp]; [by left|right].
    by apply projection_cell_inert.
  - exact H.
Qed.

Lemma geopandas_in_all : geopandas_cells ⊆ all_cells.
Proof. intros c Hc. apply elem_of_app. by left. Qed.

Lemma arcgis_in_all : arcgis_cells ⊆ all_cells.
Proof. intros c Hc. apply elem_of_app. by right. Qed.

Lemma geopandas_before_the_last_two (w : world) (d : gmap string string) :
  exists c1 c2 k,
    k = snd (run_cells (take 23 geopandas_cells) (boot w d)) /\
    geopandas_cells = take 23 geopandas_cells ++ [c1; c2] /\
    without_enabling_cell = take 23 geopandas_cells ++ [c2] /\
    find_cell enabling_cell_id geopandas_cells = Some c1 /\
    find_cell kml_cell_id geopandas_cells = Some c2 /\
    ns_lookup "gpd" (env k) = Some geopandas_module /\
    ns_lookup "gdf_kml" (env k) = None /\
    ls_drivers (lib k) = d /\
    ls_world (lib k) = w.
Proof.
  destruct (before_enabling_cell w d) as [Hgpd Hreg]. cbv zeta in Hgpd, Hreg.
  pose proof (world_is_kept geopandas_cells w d 23 geopandas_in_all) as Hw.
  do 3 eexists. split; [reflexivity|]. split; [reflexivity|].
  split; [vm_compute; reflexivity|].
  split; [vm_compute; reflexivity|]. split; [vm_compute; reflexivity|].
  split; [exact Hgpd|]. split; [|split; [exact Hreg|exact Hw]].
  rewrite run_cells_env by decided. reflexivity.
Qed.

Lemma run_cells_single {L : Library} (c : cell) (k : @kstate L) :
  run_cells [c] k = ([run_cell c k], state_of (run_cell c k)).
Proof. reflexivity. Qed.

Lemma kml_without_the_entry (w : world) (d : gmap string string) (vd : vector_data) :
  disk_file w kml_path = Some (FVector "KML" vd) ->
  driver_mode d "KML" = None ->
  exists rs k,
      run_cells without_enabling_cell (boot w d)
      = (rs ++ [Raise (Exn driver_error_type "unsupported driver: 'KML'") k], k) /\
      unbound k "gdf_kml".
Proof.
  intros Hf Hd.
  destruct (geopandas_before_the_last_two w d)
    as (c1 & c2 & k & Hk & Hall & Hskip & Hc1 & Hc2 & Hgpd & Hunb & Hreg & Hw).
  rewrite Hskip, run_cells_app, <- Hk. clear Hk Hall Hskip.
  assert (run_cell c2 k
          = Raise (Exn driver_error_type "unsupported driver: 'KML'")
                  (KState (env k) (log (Opened kml_path) (lib k)))) as Hrun.
  { apply kml_cell_fails; [done|done|].
    apply (read_file_unsupported kml_path "KML" vd (lib k));
      [by rewrite Hw|by rewrite Hreg]. }
  generalize (fst (run_cells (take 23 geopandas_cells) (boot w d))). intros rs.
  exists rs, (KState (env k) (log (Opened kml_path) (lib k))).
  split; [|exact Hunb].
  rewrite run_cells_single, Hrun. reflexivity.
Qed.

Lemma kml_with_the_entry (w : world) (d : gmap string string) (vd : vector_data) :
  disk_file w kml_path = Some (FVector "KML" vd) ->
  holds_frame (final geopandas_cells w d) "gdf_kml"
              (vector_frame GeoDataFrame "geometry" vd).
Proof.
  intros Hf.
  destruct (geopandas_before_the_last_two w d)
    as (c1 & c2 & k & Hk & Hall & Hskip & Hc1 & Hc2 & Hgpd & Hunb & Hreg & Hw).
  unfold holds_frame, final. rewrite Hall at 1. rewrite run_cells_app, <- Hk.
  clear Hk Hall Hskip.
  rewrite run_cells_snd_cons, run_cells_single.
  rewrite (enabling_cell_run c1 k Hc1 Hgpd).
  set (k1 := state_of (Ok None _)). unfold snd.
  assert (state_of (run_cell c2 k1)
          = KState (ns_bind "gdf_kml"
                      (VObj (OFrame (vector_frame GeoDataFrame "geometry" vd))) (env k1))
                   (log (Opened kml_path) (lib k1))) as Hrun.
  { apply kml_cell_binds; [done|done|].
    apply read_file_registered with (mode := "rw").
    - unfold k1. cbn [state_of lib ls_world]. by rewrite Hw.
    - unfold k1. cbn [state_of lib ls_drivers].
      unfold driver_mode, enable_driver. apply lookup_insert_eq.
    - reflexivity. }
  rewrite Hrun. apply ns_lookup_bind_eq.
Qed.

(** X12: the lesson's claim that KML has to be enabled first, checked.
    Take any world whose KML file is a KML dataset and any registry without a
    ['KML'] entry.  Run without cell e58bade8, the notebook's last cell fails
    in [gpd.read_file] with Fiona's [DriverError] for an unsupported driver and
    [gdf_kml] stays unbound.  Run as written, the entry that cell adds is what
    the read finds, and the notebook ends with [gdf_kml] holding the data of
    the file as a GeoDataFrame (whether or not the plot that follows finds its
    [Name] column). *)
Theorem kml_is_read_only_once_enabled (w : world) (d : gmap string string)
    (vd : vector_data) :
  disk_file w kml_path = Some (FVector "KML" vd) ->
  driver_mode d "KML" = None ->
  (exists rs k,
      run_cells without_enabling_cell (boot w d)
      = (rs ++ [Raise (Exn driver_error_type "unsupported driver: 'KML'") k], k) /\
      unbound k "gdf_kml") /\
  holds_frame (final geopandas_cells w d) "gdf_kml"
              (vector_frame GeoDataFrame "geometry" vd).
Proof.
  intros Hf Hd. split.
  - by apply (kml_without_the_entry w d vd).
  - by apply kml_with_the_entry.
Qed.

Lemma kml_is_read_only_once_enabled_witness :
  (exists rs k,
      run_cells without_enabling_cell (boot sample_world default_drivers)
      = (rs ++ [Raise (Exn driver_error_type "unsupported driver: 'KML'") k], k) /\
      unbound k "gdf_kml") /\
  holds_frame (final geopandas_cells sample_world default_drivers) "gdf_kml"
              (vector_frame GeoDataFrame "geometry" (basins (Some wgs84))).
Proof.
  apply (kml_is_read_only_once_enabled sample_world default_drivers
           (basins (Some wgs84))).
  - vm_compute. reflexivity.
  - vm_compute. reflexivity.
Defined.

(** ** What the cells ask of the outside world *)

Lemma read_csv_state p s : state_of (read_csv p s) = log (Opened p) s.
Proof. unfold read_csv. by repeat case_match. Qed.

Lemma read_file_state p drv s : state_of (read_file p drv s) = log (Opened p) s.
Proof. unfold read_file. by repeat case_match. Qed.

Lemma from_featureclass_state p s :
  state_of (from_featureclass (Some (VStr p)) s) = log (Opened p) s.
Proof. unfold from_featureclass. by repeat case_match. Qed.

Lemma from_layer_state u s :
  state_of (from_layer (Some (VObj (OLayer u))) s) = log (Fetched u) s.
Proof. unfold from_layer. by repeat case_match. Qed.

Lemma read_csv_tame p s v s' : read_csv p s = Ok v s' -> effectful v = false.
Proof. unfold read_csv. repeat case_match; intros; by simplify_eq. Qed.

Lemma read_file_tame p drv s v s' : read_file p drv s = Ok v s' -> effectful v = false.
Proof. unfold read_file. repeat case_match; intros; by simplify_eq. Qed.

Lemma from_featureclass_tame a s v s' :
  from_featureclass a s = Ok v s' -> effectful v = false.
Proof. unfold from_featureclass. repeat case_match; intros; by simplify_eq. Qed.

Lemma from_layer_tame a s v s' : from_layer a s = Ok v s' -> effectful v = false.
Proof. unfold from_layer. repeat case_match; intros; by simplify_eq. Qed.


(** The accesses each cell makes when it runs, as its text has them: the
    four files the GeoPandas notebook reads after the CSV table, the two files
    the ArcGIS notebook reads, and the one feature service it queries. *)
Definition access_table : list (string * list access) :=
  [ ("8ae16e96", [Opened csv_path]);
    ("a7c994ec", [Opened shp_path]);
    ("6daff34d", [Opened zip_path]);
    ("1b074272", [Opened geojson_path]);
    ("e23ea255", [Opened kml_path]);
    ("7849d27c", [Opened csv_path]);
    ("5b8a3abc", [Opened shp_path]);
    ("70889187", [Fetched state_url]) ].

Definition accesses_of (c : cell) : list access :=
  default [] (ns_lookup (cell_id c) access_table).

(** Running the cell from a kernel with no reader and no [to_csv] method in
    its namespace makes exactly the accesses [acc] and leaves the namespace
    so. *)
Definition accounted (c : cell) (acc : list access) (k : kstate) : Prop :=
  tame effectful (env k) ->
  tame effectful (env (state_of (run_cell c k))) /\
  ls_trace (lib (state_of (run_cell c k))) = rev acc ++ ls_trace (lib k).

Lemma quiet_cell_accounted (c : cell) (k : kstate) :
  quiet_cell effect_names c = true -> accounted c [] k.
Proof.
  intros Hq Ht. destruct (run_cell_silent c k Ht Hq) as [Ht' [_ Htr]]. done.
Qed.

Lemma inert_cell_accounted (c : cell) (k : kstate) : inert c -> accounted c [] k.
Proof. intros Hi Ht. by rewrite Hi. Qed.

Definition pandas_module : val := VObj (OModule ["pandas"]).
Definition geo_accessor : val := VObj (OClass class_GeoAccessor).

Ltac run_with tac :=
  match goal with
  | |- context [run_cell ?c (KState ?ns ?s)] =>
      let E := fresh "E" in
      eassert (run_cell c (KState ns s) = _) as E
        by (symr; repeat (progress tac; symr); reflexivity);
      rewrite !E; clear E
  end.

Ltac meet_reader :=
  let Hs := fresh "Hs" in
  let Hv := fresh "Hv" in
  match goal with
  | |- context [read_csv ?p ?s] =>
      pose proof (read_csv_state p s) as Hs; pose proof (read_csv_tame p s) as Hv;
      destruct (read_csv p s)
  | |- context [read_file ?p ?dr ?s] =>
      pose proof (read_file_state p dr s) as Hs;
      pose proof (read_file_tame p dr s) as Hv;
      destruct (read_file p dr s)
  | |- context [from_featureclass (Some (VStr ?p)) ?s] =>
      pose proof (from_featureclass_state p s) as Hs;
      pose proof (from_featureclass_tame (Some (VStr p)) s) as Hv;
      destruct (from_featureclass (Some (VStr p)) s)
  | |- context [from_layer (Some (VObj (OLayer ?u))) ?s] =>
      pose proof (from_layer_state u s) as Hs;
      pose proof (from_layer_tame (Some (VObj (OLayer u))) s) as Hv;
      destruct (from_layer (Some (VObj (OLayer u))) s)
  end;
  cbn [state_of] in Hs; subst; cbn [state_of env lib log ls_trace];
  (split; [first [apply tame_bind; [assumption|by eapply Hv]|assumption]|reflexivity]).

Lemma geopandas_csv_cell (c : cell) (k : kstate) :
  geopandas_cells !! 1 = Some c ->
  ns_lookup "pd" (env k) = Some pandas_module ->
  accounted c [Opened csv_path] k.
Proof.
  intros Hc Hpd Ht. injection Hc as <-. destruct k as [ns s].
  symr in Hpd. cbn [env lib] in *.
  run_with ltac:(rewrite ?Hpd). meet_reader.
Qed.

Ltac reader_cell k :=
  let Hc := fresh "Hc" in
  let Hb := fresh "Hb" in
  let Ht := fresh "Ht" in
  let ns := fresh "ns" in
  let s := fresh "s" in
  intros Hc Hb Ht; injection Hc as <-; destruct k as [ns s];
  symr in Hb; cbn [env lib] in *;
  run_with ltac:(rewrite ?Hb); meet_reader.

Lemma geopandas_shp_cell (c : cell) (k : kstate) :
  geopandas_cells !! 14 = Some c ->
  ns_lookup "gpd" (env k) = Some geopandas_module ->
  accounted c [Opened shp_path] k.
Proof. reader_cell k. Qed.

Lemma geopandas_zip_cell (c : cell) (k : kstate) :
  geopandas_cells !! 15 = Some c ->
  ns_lookup "gpd" (env k) = Some geopandas_module ->
  accounted c [Opened zip_path] k.
Proof. reader_cell k. Qed.

Lemma geopandas_geojson_cell (c : cell) (k : kstate) :
  geopandas_cells !! 19 = Some c ->
  ns_lookup "gpd" (env k) = Some geopandas_module ->
  accounted c [Opened geojson_path] k.
Proof. reader_cell k. Qed.

Lemma read_file_shape p drv s v s' :
  read_file p drv s = Ok v s' ->
  exists vd, v = VObj (OFrame (vector_frame GeoDataFrame "geometry" vd)).
Proof. unfold read_file. repeat case_match; intros; simplify_eq; by eexists. Qed.

Lemma geopandas_kml_cell (c : cell) (k : kstate) :
  geopandas_cells !! 24 = Some c ->
  ns_lookup "gpd" (env k) = Some geopandas_module ->
  accounted c [Opened kml_path] k.
Proof.
  intros Hc Hgpd Ht.
  assert (find_cell kml_cell_id geopandas_cells = Some c) as Hf.
  { injection Hc as <-. vm_compute. reflexivity. }
  pose proof (read_file_state kml_path (Some "KML") (lib k)) as Hs.
  destruct (read_file kml_path (Some "KML") (lib k)) as [v s1|e s1] eqn:E;
    cbn [state_of] in Hs; subst s1.
  - destruct (read_file_shape _ _ _ _ _ E) as [vd ->].
    rewrite (kml_cell_binds c k vd _ Hf Hgpd E). cbn [env lib log ls_trace].
    split; [|reflexivity]. apply tame_bind; [assumption|reflexivity].
  - rewrite (kml_cell_fails c k e _ Hf Hgpd E). cbn [state_of env lib log ls_trace].
    done.
Qed.

Lemma arcgis_csv_cell (c : cell) (k : kstate) :
  arcgis_cells !! 1 = Some c ->
  ns_lookup "pd" (env k) = Some pandas_module ->
  accounted c [Opened csv_path] k.
Proof. reader_cell k. Qed.

Lemma arcgis_shp_cell (c : cell) (k : kstate) :
  arcgis_cells !! 10 = Some c ->
  ns_lookup "GeoAccessor" (env k) = Some geo_accessor ->
  accounted c [Opened shp_path] k.
Proof. reader_cell k. Qed.

Lemma arcgis_layer_cell (c : cell) (k : kstate) :
  arcgis_cells !! 18 = Some c ->
  ns_lookup "GeoAccessor" (env k) = Some geo_accessor /\
  ns_lookup "state_layer" (env k) = Some (VObj (OLayer state_url)) ->
  accounted c [Fetched state_url] k.
Proof.
  intros Hc [Hb1 Hb2] Ht. injection Hc as <-. destruct k as [ns s].
  symr in Hb1. symr in Hb2. cbn [env lib] in *.
  run_with ltac:(rewrite ?Hb1, ?Hb2). meet_reader.
Qed.

(** *** Names that stay bound *)

Lemma binders_take (x : string) (cs : list cell) (n : nat) :
  x ∉ concat (map cell_binders cs) -> x ∉ concat (map cell_binders (take n cs)).
Proof.
  intros H Hin. apply H. rewrite <- (take_drop n cs), map_app, concat_app.
  apply elem_of_app. by left.
Qed.

Lemma first_binding_stays (cs rest : list cell) (c0 : cell) (x : string) (v : val)
    (w : world) (d : gmap string string) (n : nat) :
  cs = c0 :: rest ->
  ns_lookup x (env (state_of (run_cell c0 (boot w d)))) = Some v ->
  x ∉ concat (map cell_binders rest) ->
  1 <= n ->
  ns_lookup x (env (snd (run_cells (take n cs) (boot w d)))) = Some v.
Proof.
  intros -> Hv Hx Hn. destruct n as [|n]; [lia|].
  cbn [take]. rewrite run_cells_snd_cons, run_cells_env; [done|].
  by apply binders_take.
Qed.

Lemma geopandas_modules (w : world) (d : gmap string string) (n : nat) :
  1 <= n ->
  let k := snd (run_cells (take n geopandas_cells) (boot w d)) in
  ns_lookup "pd" (env k) = Some pandas_module /\
  ns_lookup "gpd" (env k) = Some geopandas_module.
Proof.
  intros Hn. split.
  - eapply first_binding_stays; [reflexivity|reflexivity|decided|done].
  - eapply first_binding_stays; [reflexivity|reflexivity|decided|done].
Qed.

Lemma arcgis_names (w : world) (d : gmap string string) (n : nat) :
  1 <= n ->
  let k := snd (run_cells (take n arcgis_cells) (boot w d)) in
  ns_lookup "pd" (env k) = Some pandas_module /\
  ns_lookup "GeoAccessor" (env k) = Some geo_accessor.
Proof.
  intros Hn. split.
  - eapply first_binding_stays; [reflexivity|reflexivity|decided|done].
  - eapply first_binding_stays; [reflexivity|reflexivity|decided|done].
Qed.

Lemma take_split {A} (l : list A) (m n : nat) :
  m <= n -> take n l = take m l ++ take (n - m) (drop m l).
Proof.
  intros H. rewrite <- (take_drop m (take n l)).
  rewrite take_take, Nat.min_l by lia. f_equal.
  rewrite take_drop_commute. f_equal. f_equal. lia.
Qed.

(** A name the first statement of a cell binds, and no later one binds
    again, holds that value when the cell ends, however it ends. *)
Lemma first_statement_binding {L : Library} (c : cell) (st : stmt)
    (rest : list stmt) (k k1 : @kstate L) (d : option (value (@Kernel.obj L)))
    (x : string) (v : value (@Kernel.obj L)) :
  parse_cell (cell_text c) = inr (st :: rest) ->
  exec_stmt st k = Ok d k1 ->
  ns_lookup x (env k1) = Some v ->
  x ∉ omap binder rest ->
  ns_lookup x (env (state_of (run_cell c k))) = Some v.
Proof.
  intros Hp Hst Hv Hx. unfold run_cell. rewrite Hp. cbn [exec_stmts].
  rewrite Hst. by rewrite exec_stmts_env.
Qed.

(** The three cells that import [FeatureLayer], name the two URLs and open
    the state layer always succeed. *)
Lemma feature_layer_cell (c : cell) (k : kstate) :
  arcgis_cells !! 15 = Some c ->
  ns_lookup "FeatureLayer" (env (state_of (run_cell c k)))
  = Some (VObj (OClass class_FeatureLayer)).
Proof.
  intros Hc. injection Hc as <-. destruct k as [ns s].
  run_with ltac:(idtac). cbn [state_of env]. apply ns_lookup_bind_eq.
Qed.

Lemma layer_url_cell (c : cell) (k : kstate) :
  arcgis_cells !! 16 = Some c ->
  ns_lookup "state_layer_url" (env (state_of (run_cell c k))) = Some (VStr state_url).
Proof.
  intros Hc. injection Hc as <-. destruct k as [ns s].
  run_with ltac:(idtac). cbn [state_of env].
  rewrite ns_lookup_bind_ne by done. apply ns_lookup_bind_eq.
Qed.

Lemma state_layer_cell (c : cell) (k : kstate) :
  arcgis_cells !! 17 = Some c ->
  ns_lookup "FeatureLayer" (env k) = Some (VObj (OClass class_FeatureLayer)) ->
  ns_lookup "state_layer_url" (env k) = Some (VStr state_url) ->
  ns_lookup "state_layer" (env (state_of (run_cell c k)))
  = Some (VObj (OLayer state_url)).
Proof.
  intros Hc H1 H2. injection Hc as <-. destruct k as [ns s].
  symr in H1. symr in H2. cbn [env] in *.
  match goal with
  | |- context [run_cell ?c _] =>
      let p := eval vm_compute in (parse_cell (cell_text c)) in
      match p with
      | inr (?st :: ?rest) =>
          eapply (@first_statement_binding reflib c st rest _ _ _ "state_layer")
      end
  end.
  - vm_compute. reflexivity.
  - symr. rewrite H1. symr. rewrite H2. reflexivity.
  - apply ns_lookup_bind_eq.
  - decided.
Qed.

Lemma arcgis_layer (w : world) (d : gmap string string) (n : nat) :
  18 <= n ->
  ns_lookup "state_layer" (env (snd (run_cells (take n arcgis_cells) (boot w d))))
  = Some (VObj (OLayer state_url)).
Proof.
  intros Hn. rewrite (take_split arcgis_cells 18 n Hn), run_cells_app. cbn [snd].
  rewrite run_cells_env by (apply binders_take; decided).
  assert (exists c15 c16 c17,
             arcgis_cells !! 15 = Some c15 /\ arcgis_cells !! 16 = Some c16 /\
             arcgis_cells !! 17 = Some c17 /\
             "FeatureLayer" ∉ cell_binders c16) as (c15 & c16 & c17 & H15 & H16 & H17 & Hb).
  { do 3 eexists. split; [reflexivity|]. split; [reflexivity|].
    split; [reflexivity|]. decided. }
  rewrite (run_cells_take_S _ _ 17 c17 H17).
  apply state_layer_cell; [done| |].
  - rewrite (run_cells_take_S _ _ 16 c16 H16), run_cell_env by done.
    rewrite (run_cells_take_S _ _ 15 c15 H15). by apply feature_layer_cell.
  - rewrite (run_cells_take_S _ _ 16 c16 H16). by apply layer_url_cell.
Qed.

(** *** The walk through a notebook *)

Definition prefix_state (cells : list cell) (w : world) (d : gmap string string)
    (n : nat) : kstate :=
  snd (run_cells (take n cells) (boot w d)).

Definition accesses_up_to (cells : list cell) (n : nat) : list access :=
  concat (map accesses_of (take n cells)).

Definition trace_matches (cells : list cell) (w : world) (d : gmap string string)
    (n : nat) : Prop :=
  tame effectful (env (prefix_state cells w d n)) /\
  rev (ls_trace (lib (prefix_state cells w d n))) = accesses_up_to cells n.

Lemma trace_matches_step (cells : list cell) (w : world) (d : gmap string string)
    (n : nat) (c : cell) :
  cells !! n = Some c ->
  accounted c (accesses_of c) (prefix_state cells w d n) ->
  trace_matches cells w d n -> trace_matches cells w d (S n).
Proof.
  intros Hc Hacc [Ht Htr]. unfold trace_matches, prefix_state, accesses_up_to in *.
  rewrite (run_cells_take_S _ _ _ _ Hc), (take_S_r _ _ _ Hc).
  destruct (Hacc Ht) as [Ht' Htr']. split; [done|].
  rewrite Htr', rev_app_distr, rev_involutive, Htr, map_app, concat_app.
  simpl. by rewrite app_nil_r.
Qed.

Lemma trace_matches_ge (cells : list cell) (w : world) (d : gmap string string)
    (n : nat) :
  length cells <= n ->
  trace_matches cells w d (length cells) -> trace_matches cells w d n.
Proof.
  intros Hn. unfold trace_matches, prefix_state, accesses_up_to.
  by rewrite !(take_ge cells) by lia.
Qed.

Ltac known_accesses :=
  match goal with
  | |- accounted ?c (accesses_of ?c) _ =>
      let a := eval vm_compute in (accesses_of c) in
      change (accesses_of c) with a
  end.

Ltac account_quiet :=
  known_accesses;
  first [ apply quiet_cell_accounted; vm_compute; reflexivity
        | apply inert_cell_accounted, projection_cell_inert; vm_compute; reflexivity ].

Lemma geopandas_trace (w : world) (d : gmap string string) (n : nat) :
  trace_matches geopandas_cells w d n.
Proof.
  assert (forall m, m <= length geopandas_cells -> trace_matches geopandas_cells w d m)
    as H.
  { induction m as [|m IH]; intros Hm.
    - split; [apply tame_nil|reflexivity].
    - specialize (IH ltac:(lia)).
      destruct (geopandas_cells !! m) as [c|] eqn:Hc;
        [|apply lookup_ge_None in Hc; lia].
      apply (trace_matches_step _ _ _ _ c Hc); [|exact IH].
      destruct (decide (1 <= m)) as [H1|H0].
      + destruct (geopandas_modules w d m H1) as [Hpd Hgpd].
        fold (prefix_state geopandas_cells w d m) in Hpd, Hgpd.
        clear IH H1 Hm.
        generalize dependent (prefix_state geopandas_cells w d m). intros k Hpd Hgpd.
        do 25 (destruct m as [|m];
               [injection Hc as <-;
                first [ account_quiet
                      | known_accesses; by apply geopandas_csv_cell
                      | known_accesses; by apply geopandas_shp_cell
                      | known_accesses; by apply geopandas_zip_cell
                      | known_accesses; by apply geopandas_geojson_cell
                      | known_accesses; by apply geopandas_kml_cell ]|]).
        discriminate.
      + assert (m = 0) as -> by lia. injection Hc as <-. account_quiet. }
  destruct (decide (n <= length geopandas_cells)) as [Hn|Hn]; [by apply H|].
  apply trace_matches_ge; [lia|]. by apply H.
Qed.

Lemma arcgis_trace (w : world) (d : gmap string string) (n : nat) :
  trace_matches arcgis_cells w d n.
Proof.
  assert (forall m, m <= length arcgis_cells -> trace_matches arcgis_cells w d m)
    as H.
  { induction m as [|m IH]; intros Hm.
    - split; [apply tame_nil|reflexivity].
    - specialize (IH ltac:(lia)).
      destruct (arcgis_cells !! m) as [c|] eqn:Hc;
        [|apply lookup_ge_None in Hc; lia].
      apply (trace_matches_step _ _ _ _ c Hc); [|exact IH].
      destruct (decide (1 <= m)) as [H1|H0].
      + destruct (arcgis_names w d m H1) as [Hpd Hga].
        pose proof (arcgis_layer w d m) as Hl.
        fold (prefix_state arcgis_cells w d m) in Hpd, Hga, Hl.
        clear IH H1 Hm.
        generalize dependent (prefix_state arcgis_cells w d m). intros k Hpd Hga Hl.
        do 23 (destruct m as [|m];
               [injection Hc as <-;
                first [ account_quiet
                      | known_accesses; by apply arcgis_csv_cell
                      | known_accesses; by apply arcgis_shp_cell
                      | known_accesses; apply arcgis_layer_cell;
                        [reflexivity|split; [exact Hga|apply Hl; lia]] ]|]).
        discriminate.
      + assert (m = 0) as -> by lia. injection Hc as <-. account_quiet. }
  destruct (decide (n <= length arcgis_cells)) as [Hn|Hn]; [by apply H|].
  apply trace_matches_ge; [lia|]. by apply H.
Qed.


(** *** What Run All reaches *)

Lemma geopandas_run_all_prefix (w : world) (d : gmap string string) :
  exists j, j <= 12 /\
    snd (run_all geopandas_cells (boot w d)) = prefix_state geopandas_cells w d j.
Proof.
  assert (exists c, geopandas_cells
                    = take 11 geopandas_cells ++ c :: drop 12 geopandas_cells
                    /\ take 12 geopandas_cells = take 11 geopandas_cells ++ [c]
                    /\ find_cell projection_cell_id geopandas_cells = Some c)
    as (c & Hsplit & Htake & Hc).
  { eexists. split; [reflexivity|]. split; reflexivity. }
  assert (@always_raises reflib c) as Hr.
  { intros k. destruct (projection_cell_run c k Hc) as (e & He & _). eauto. }
  assert (run_all geopandas_cells (boot w d)
          = run_all (take 12 geopandas_cells) (boot w d)) as ->.
  { rewrite Htake. rewrite Hsplit at 1. by apply run_all_cut. }
  destruct (run_all_prefix (take 12 geopandas_cells) (boot w d)) as (j & Hj & ->).
  change (length (take 12 geopandas_cells)) with 12 in Hj. exists j. split; [lia|].
  unfold prefix_state. by rewrite take_take, Nat.min_l by lia.
Qed.

Lemma arcgis_run_all_prefix (w : world) (d : gmap string string) :
  exists j, j <= 15 /\
    snd (run_all arcgis_cells (boot w d)) = prefix_state arcgis_cells w d j.
Proof.
  assert (exists c, arcgis_cells = take 14 arcgis_cells ++ c :: drop 15 arcgis_cells
                    /\ take 15 arcgis_cells = take 14 arcgis_cells ++ [c]
                    /\ @always_raises reflib c) as (c & Hsplit & Htake & Hr).
  { eexists. split; [reflexivity|]. split; [reflexivity|].
    intros k. exists syntax_exn, k. unfold run_cell.
    replace (parse_cell _) with
      (@inl syntax_error (list stmt) (ParseError (ExpectedName [Lexer.TNewline])))
      by (vm_compute; reflexivity).
    reflexivity. }
  assert (run_all arcgis_cells (boot w d)
          = run_all (take 15 arcgis_cells) (boot w d)) as ->.
  { rewrite Htake. rewrite Hsplit at 1. by apply run_all_cut. }
  destruct (run_all_prefix (take 15 arcgis_cells) (boot w d)) as (j & Hj & ->).
  change (length (take 15 arcgis_cells)) with 15 in Hj. exists j. split; [lia|].
  unfold prefix_state. by rewrite take_take, Nat.min_l by lia.
Qed.

Lemma accesses_up_to_le (cells : list cell) (j m : nat) (a : access) :
  j <= m -> a ∈ accesses_up_to cells j -> a ∈ accesses_up_to cells m.
Proof.
  intros Hj. unfold accesses_up_to. rewrite (take_split cells j m Hj).
  rewrite map_app, concat_app. intros H. apply elem_of_app. by left.
Qed.

(** X14: under Run All the later inputs are never touched.  In every
    world, a run of the GeoPandas notebook that stops at the first failing
    cell has opened at most the CSV file, and such a run of the ArcGIS notebook
    has opened at most the CSV file and the shapefile: no feature service is
    queried. *)
Theorem run_all_reads_little (w : world) (d : gmap string string) :
  Forall (fun a => a = Opened csv_path)
         (ls_trace (lib (snd (run_all geopandas_cells (boot w d))))) /\
  Forall (fun a => a = Opened csv_path \/ a = Opened shp_path)
         (ls_trace (lib (snd (run_all arcgis_cells (boot w d))))).
Proof.
  split.
  - destruct (geopandas_run_all_prefix w d) as (j & Hj & ->).
    destruct (geopandas_trace w d j) as [_ Htr].
    apply Forall_forall. intros a Ha.
    apply list_elem_of_In, in_rev, list_elem_of_In in Ha. rewrite Htr in Ha.
    apply (accesses_up_to_le _ j 12 a Hj) in Ha.
    vm_compute in Ha. apply list_elem_of_singleton in Ha. exact Ha.
  - destruct (arcgis_run_all_prefix w d) as (j & Hj & ->).
    destruct (arcgis_trace w d j) as [_ Htr].
    apply Forall_forall. intros a Ha.
    apply list_elem_of_In, in_rev, list_elem_of_In in Ha. rewrite Htr in Ha.
    apply (accesses_up_to_le _ j 15 a Hj) in Ha.
    vm_compute in Ha. apply elem_of_cons in Ha as [->|Ha]; [by left|].
    apply list_elem_of_singleton in Ha. by right.
Qed.

End Lessons.
